(** * Aardvark GPIO controller ([lib/aardvark_gpio.py])

    A shallow embedding of the [AardvarkGPIO] class: the object's
    attributes, the calls it makes into the vendor module [aardvark_py]
    (imported as [aa]) and the exceptions it raises, followed by the
    properties of the controller. *)

From Stdlib Require Import ZArith List String Ascii Bool Lia.
Import ListNotations.
Local Open Scope string_scope.
Local Open Scope Z_scope.

(** ** Python values and exceptions *)

(** What a caller can pass as [pin].  [PyInt] stands for every instance of
    [int] (so also for [True] and [False], which are the ints 1 and 0 for
    [isinstance]), [PyStr] for instances of [str], [PyOther] for the rest
    ([None], floats, lists, ...).  A [str] is modelled by its characters
    when they are ASCII; [str.upper] is then the map of [a]..[z] to
    [A]..[Z]. *)
Inductive pyval : Type :=
| PyInt (z : Z)
| PyStr (s : string)
| PyOther.

(** Exceptions, one constructor per [raise] statement of the module, and
    [Raised cls] for an exception of class [cls] that comes out of a call
    the module makes ([aardvark_py], [time.sleep], a missing attribute). *)
Inductive exn : Type :=
| InvalidGpioPin (pin : Z)            (* ValueError, __init__ *)
| InvalidGpioPinName (pin : string)   (* ValueError, __init__ *)
| PinMustBeIntOrStr                   (* TypeError, __init__ *)
| NoAdaptersFound                     (* RuntimeError, _open *)
| PortNotAvailable (port n : Z)       (* ValueError, _open *)
| FailedToOpen (port code : Z)        (* RuntimeError, _open *)
| Raised (cls : string).

Definition py_class (e : exn) : string :=
  match e with
  | InvalidGpioPin _ | InvalidGpioPinName _ | PortNotAvailable _ _ => "ValueError"
  | PinMustBeIntOrStr => "TypeError"
  | NoAdaptersFound | FailedToOpen _ _ => "RuntimeError"
  | Raised cls => cls
  end.

(** The error kinds of the specification. *)
Inductive ErrorKind : Type :=
| InvalidArgument
| DeviceNotFound
| DeviceOpenFailed
| NotOpen
| DeviceIOError.

(** The kind of each [raise] statement of the module: bad pin selector and
    bad port index are [InvalidArgument], zero adapters is
    [DeviceNotFound], a non-positive handle is [DeviceOpenFailed].  The
    module has no [raise] for the two other kinds; an exception that only
    passes through it carries no kind of the module's. *)
Definition error_kind (e : exn) : option ErrorKind :=
  match e with
  | InvalidGpioPin _ | InvalidGpioPinName _ | PinMustBeIntOrStr => Some InvalidArgument
  | PortNotAvailable _ _ => Some InvalidArgument
  | NoAdaptersFound => Some DeviceNotFound
  | FailedToOpen _ _ => Some DeviceOpenFailed
  | Raised _ => None
  end.

(** The vendor error code a [DeviceOpenFailed] error carries. *)
Definition error_code (e : exn) : option Z :=
  match e with
  | FailedToOpen _ code => Some code
  | _ => None
  end.

(** ** [str.upper] and the operations on the [GPIO_PINS] dict *)

Definition upper_char (c : ascii) : ascii :=
  let n := N_of_ascii c in
  if ((97 <=? n) && (n <=? 122))%N then ascii_of_N (n - 32) else c.

Fixpoint upper (s : string) : string :=
  match s with
  | EmptyString => EmptyString
  | String c s' => String (upper_char c) (upper s')
  end.

(** A dict literal with distinct keys, in insertion order. *)
Definition dict := list (string * Z).

Definition keys (d : dict) : list string := map fst d.

Fixpoint dict_get (d : dict) (k : string) : option Z :=
  match d with
  | [] => None
  | (k', v) :: d' => if String.eqb k k' then Some v else dict_get d' k
  end.

(** [k in d] *)
Definition dict_contains (d : dict) (k : string) : bool :=
  existsb (String.eqb k) (keys d).

(** [l.index(x)] *)
Fixpoint list_index (l : list string) (x : string) : option Z :=
  match l with
  | [] => None
  | y :: l' => if String.eqb x y then Some 0
               else option_map Z.succ (list_index l' x)
  end.

(** [l[i]] for [0 <= i] (the only indices the module uses). *)
Definition list_item (l : list string) (i : Z) : option string :=
  if i <? 0 then None else nth_error l (Z.to_nat i).

(** ** The interface of [aardvark_py] *)

(** The calls the module makes, as they appear in a run: the functions of
    [aardvark_py] with their arguments, and [time.sleep] with its argument
    in milliseconds.  A handle argument is whatever [self.handle] holds,
    [None] or an int. *)
Inductive Event : Type :=
| FindDevicesExt (num_devices num_ids : Z)
| Open (port : Z)
| Version (h : option Z)
| Configure (h : option Z) (config : Z)
| GpioDirection (h : option Z) (mask : Z)
| GpioPullup (h : option Z) (mask : Z)
| GpioGet (h : option Z)
| GpioSet (h : option Z) (value : Z)
| Close (h : option Z)
| TimeSleep (ms : Z).

(** What a call into the vendor module gives back: a value, or the class
    of the exception it raises, and the device's next state. *)
Definition answer (D A : Type) : Type := ((string + A) * D)%type.

(** The part of [aardvark_py] the module uses, over a device state [D]:
    the pin and mode constants and the functions. *)
Class AardvarkPy (D : Type) : Type := {
  AA_GPIO_SCL : Z;
  AA_GPIO_SDA : Z;
  AA_GPIO_MISO : Z;
  AA_GPIO_SCK : Z;
  AA_GPIO_MOSI : Z;
  AA_GPIO_SS : Z;
  AA_CONFIG_GPIO_ONLY : Z;
  aa_find_devices_ext : Z -> Z -> D -> answer D (Z * list Z * list Z);
  aa_open : Z -> D -> answer D Z;
  aa_version : option Z -> D -> answer D (Z * Z);
  aa_configure : option Z -> Z -> D -> answer D Z;
  aa_gpio_direction : option Z -> Z -> D -> answer D Z;
  aa_gpio_pullup : option Z -> Z -> D -> answer D Z;
  aa_gpio_get : option Z -> D -> answer D Z;
  aa_gpio_set : option Z -> Z -> D -> answer D Z;
  aa_close : option Z -> D -> answer D Z
}.

(** ** The object and the world it runs in *)

(** The attributes of an [AardvarkGPIO] object.  [pin_name], [pin_mask]
    and [pin_num] do not exist until [__init__] assigns them. *)
Record Self : Type := mkSelf {
  port : Z;
  verbose : bool;
  handle : option Z;
  pin_name : option string;
  pin_mask : option Z;
  pin_num : option Z
}.

(** The lines [_log] prints, with the values they are formatted from. *)
Inductive LogLine : Type :=
| LogFound (num_devices : Z)
| LogOpened (port h : Z)
| LogVersion (api firmware : Z)
| LogGpioOnly
| LogConfigured (name : string) (num : Z)
| LogInitLow
| LogSetHigh (name : string)
| LogSetHighPhysical (before after mask : Z)
| LogSetLow (name : string)
| LogSetLowPhysical (before after mask : Z)
| LogReadback (value : Z)
| LogPinLevel (name : string) (mask : Z) (is_high : bool)
| LogPulse (duration_ms : Z)
| LogClosed.

Record World (D : Type) : Type := mkWorld {
  self : Self;
  drv : D;
  trace : list Event;      (* the calls made so far, oldest first *)
  stdout : list LogLine    (* the lines printed so far, oldest first *)
}.
Arguments mkWorld {D}.
Arguments self {D}.
Arguments drv {D}.
Arguments trace {D}.
Arguments stdout {D}.

(** ** A state and exception monad *)

Definition M (D A : Type) : Type := World D -> (exn + A) * World D.

Definition ret {D A} (a : A) : M D A := fun w => (inr a, w).

Definition raise {D A} (e : exn) : M D A := fun w => (inl e, w).

Definition bind {D A B} (m : M D A) (k : A -> M D B) : M D B :=
  fun w =>
    match m w with
    | (inr a, w') => k a w'
    | (inl e, w') => (inl e, w')
    end.

Declare Scope py_scope.
Delimit Scope py_scope with py.
Notation "x <- m ;; k" := (bind m (fun x => k))
  (at level 61, m at next level, right associativity) : py_scope.
Notation "m ;; k" := (bind m (fun _ => k))
  (at level 61, right associativity) : py_scope.
Local Open Scope py_scope.

Section Controller.

Context {D : Type} {aa : AardvarkPy D}.

(** *** Attribute access *)

Definition set_self (f : Self -> Self) : M D unit :=
  fun w => (inr tt, mkWorld (f (self w)) (drv w) (trace w) (stdout w)).

Definition set_port (v : Z) : M D unit :=
  set_self (fun s => mkSelf v (verbose s) (handle s) (pin_name s) (pin_mask s) (pin_num s)).
Definition set_verbose (v : bool) : M D unit :=
  set_self (fun s => mkSelf (port s) v (handle s) (pin_name s) (pin_mask s) (pin_num s)).
Definition set_handle (v : option Z) : M D unit :=
  set_self (fun s => mkSelf (port s) (verbose s) v (pin_name s) (pin_mask s) (pin_num s)).
Definition set_pin_name (v : string) : M D unit :=
  set_self (fun s => mkSelf (port s) (verbose s) (handle s) (Some v) (pin_mask s) (pin_num s)).
Definition set_pin_mask (v : Z) : M D unit :=
  set_self (fun s => mkSelf (port s) (verbose s) (handle s) (pin_name s) (Some v) (pin_num s)).
Definition set_pin_num (v : Z) : M D unit :=
  set_self (fun s => mkSelf (port s) (verbose s) (handle s) (pin_name s) (pin_mask s) (Some v)).

Definition self_port : M D Z := fun w => (inr (port (self w)), w).
Definition self_verbose : M D bool := fun w => (inr (verbose (self w)), w).
Definition self_handle : M D (option Z) := fun w => (inr (handle (self w)), w).

(** Reading an attribute that was never assigned raises [AttributeError];
    so do a failed subscript ([IndexError], [KeyError]) and a failed
    [index] ([ValueError]). *)
Definition unwrap {A} (cls : string) (o : option A) : M D A :=
  match o with
  | Some a => ret a
  | None => raise (Raised cls)
  end.

Definition self_pin_name : M D string :=
  fun w => unwrap "AttributeError" (pin_name (self w)) w.
Definition self_pin_mask : M D Z :=
  fun w => unwrap "AttributeError" (pin_mask (self w)) w.
Definition self_pin_num : M D Z :=
  fun w => unwrap "AttributeError" (pin_num (self w)) w.

(** *** Calls out of the module *)

(** A call into [aardvark_py]: it is recorded, then answered by the
    device; an exception it raises propagates. *)
Definition call {A} (ev : Event) (f : D -> answer D A) : M D A :=
  fun w =>
    let (r, d') := f (drv w) in
    (match r with inl cls => inl (Raised cls) | inr a => inr a end,
     mkWorld (self w) d' (trace w ++ [ev]) (stdout w)).

(** [time.sleep(duration_ms / 1000.0)]: a negative length raises
    [ValueError], any other one blocks for at least that long.  (Lengths
    beyond what the platform's clock holds, which raise [OverflowError],
    are outside the model.) *)
Definition time_sleep (duration_ms : Z) : M D unit :=
  if duration_ms <? 0 then raise (Raised "ValueError")
  else fun w => (inr tt, mkWorld (self w) (drv w) (trace w ++ [TimeSleep duration_ms]) (stdout w)).

Definition print (l : LogLine) : M D unit :=
  fun w => (inr tt, mkWorld (self w) (drv w) (trace w) (stdout w ++ [l])).

(** *** The class *)

Definition GPIO_PINS : dict :=
  [ ("SCL", AA_GPIO_SCL);
    ("SDA", AA_GPIO_SDA);
    ("MISO", AA_GPIO_MISO);
    ("SCK", AA_GPIO_SCK);
    ("MOSI", AA_GPIO_MOSI);
    ("SS", AA_GPIO_SS) ].

Definition _log (message : LogLine) : M D unit :=
  v <- self_verbose ;;
  if v then print message else ret tt.

Definition _configure_gpio : M D unit :=
  h <- self_handle ;;
  mask <- self_pin_mask ;;
  call (GpioDirection h mask) (aa_gpio_direction h mask) ;;
  h <- self_handle ;;
  call (GpioPullup h 0) (aa_gpio_pullup h 0) ;;
  h <- self_handle ;;
  current <- call (GpioGet h) (aa_gpio_get h) ;;
  mask <- self_pin_mask ;;
  let new_value := Z.land current (Z.lnot mask) in
  h <- self_handle ;;
  call (GpioSet h new_value) (aa_gpio_set h new_value) ;;
  name <- self_pin_name ;;
  num <- self_pin_num ;;
  _log (LogConfigured name num) ;;
  _log LogInitLow.

Definition _open : M D unit :=
  r <- call (FindDevicesExt 16 16) (aa_find_devices_ext 16 16) ;;
  let num_devices := fst (fst r) in
  if num_devices =? 0 then raise NoAdaptersFound else
  _log (LogFound num_devices) ;;
  p <- self_port ;;
  if p >=? num_devices then raise (PortNotAvailable p num_devices) else
  p <- self_port ;;
  h <- call (Open p) (aa_open p) ;;
  set_handle (Some h) ;;
  if h <=? 0 then (p <- self_port ;; raise (FailedToOpen p h)) else
  p <- self_port ;;
  _log (LogOpened p h) ;;
  h <- self_handle ;;
  version <- call (Version h) (aa_version h) ;;
  _log (LogVersion (fst version) (snd version)) ;;
  h <- self_handle ;;
  call (Configure h AA_CONFIG_GPIO_ONLY) (aa_configure h AA_CONFIG_GPIO_ONLY) ;;
  _log LogGpioOnly ;;
  _configure_gpio.

Definition __init__ (port : Z) (pin : pyval) (verbose : bool) : M D unit :=
  set_port port ;;
  set_verbose verbose ;;
  set_handle None ;;
  match pin with
  | PyInt pin =>
      if (pin <? 0) || (pin >? 5) then raise (InvalidGpioPin pin) else
      let pin_names := keys GPIO_PINS in
      name <- unwrap "IndexError" (list_item pin_names pin) ;;
      set_pin_name name ;;
      name <- self_pin_name ;;
      mask <- unwrap "KeyError" (dict_get GPIO_PINS name) ;;
      set_pin_mask mask
  | PyStr pin =>
      let pin_upper := upper pin in
      if negb (dict_contains GPIO_PINS pin_upper) then raise (InvalidGpioPinName pin) else
      set_pin_name pin_upper ;;
      mask <- unwrap "KeyError" (dict_get GPIO_PINS pin_upper) ;;
      set_pin_mask mask
  | PyOther => raise PinMustBeIntOrStr
  end ;;
  name <- self_pin_name ;;
  num <- unwrap "ValueError" (list_index (keys GPIO_PINS) name) ;;
  set_pin_num num ;;
  _open.

Definition set_high : M D unit :=
  h <- self_handle ;;
  current <- call (GpioGet h) (aa_gpio_get h) ;;
  mask <- self_pin_mask ;;
  let new_value := Z.land current (Z.lnot mask) in
  h <- self_handle ;;
  call (GpioSet h new_value) (aa_gpio_set h new_value) ;;
  h <- self_handle ;;
  actual <- call (GpioGet h) (aa_gpio_get h) ;;
  name <- self_pin_name ;;
  _log (LogSetHigh name) ;;
  mask <- self_pin_mask ;;
  _log (LogSetHighPhysical current actual mask).

Definition set_low : M D unit :=
  h <- self_handle ;;
  current <- call (GpioGet h) (aa_gpio_get h) ;;
  mask <- self_pin_mask ;;
  let new_value := Z.lor current mask in
  h <- self_handle ;;
  call (GpioSet h new_value) (aa_gpio_set h new_value) ;;
  h <- self_handle ;;
  actual <- call (GpioGet h) (aa_gpio_get h) ;;
  name <- self_pin_name ;;
  _log (LogSetLow name) ;;
  mask <- self_pin_mask ;;
  _log (LogSetLowPhysical current actual mask).

Definition get_state : M D bool :=
  h <- self_handle ;;
  value <- call (GpioGet h) (aa_gpio_get h) ;;
  mask <- self_pin_mask ;;
  let is_high := negb (Z.land value mask =? 0) in
  v <- self_verbose ;;
  (if v then
     _log (LogReadback value) ;;
     name <- self_pin_name ;;
     mask <- self_pin_mask ;;
     _log (LogPinLevel name mask is_high)
   else ret tt) ;;
  ret is_high.

Definition pulse (duration_ms : Z) : M D unit :=
  set_low ;;
  time_sleep duration_ms ;;
  set_high ;;
  _log (LogPulse duration_ms).

(** [if self.handle:] is false for [None] and for [0]. *)
Definition truthy (h : option Z) : bool :=
  match h with
  | None => false
  | Some z => negb (z =? 0)
  end.

Definition close : M D unit :=
  h <- self_handle ;;
  if truthy h then
    h <- self_handle ;;
    call (Close h) (aa_close h) ;;
    _log LogClosed ;;
    set_handle None
  else ret tt.

Definition __enter__ : M D unit := ret tt.

Definition __exit__ : M D unit := close.

Definition __del__ : M D unit := close.

End Controller.

(** ** A simulated adapter *)

(** The device behind [aardvark_py], as far as the module can observe it:
    what enumeration and [aa_open] answer, the handles that are open, and
    the 8-bit configuration, direction, pullup and GPIO registers. *)
Record Sim : Type := mkSim {
  sim_devices : Z;           (* the count [aa_find_devices_ext] returns *)
  sim_ports : list Z;
  sim_ids : list Z;
  sim_handle : Z -> Z;       (* what [aa_open] returns for a port: a handle, or a status <= 0 *)
  sim_version : Z * Z;
  sim_opened : list Z;       (* the handles that are open *)
  sim_config : Z;
  sim_direction : Z;
  sim_pullup : Z;
  sim_gpio : Z               (* the GPIO register *)
}.

Definition is_open (d : Sim) (h : Z) : bool := existsb (Z.eqb h) (sim_opened d).

Definition with_opened (l : list Z) (d : Sim) : Sim :=
  mkSim (sim_devices d) (sim_ports d) (sim_ids d) (sim_handle d) (sim_version d)
        l (sim_config d) (sim_direction d) (sim_pullup d) (sim_gpio d).
Definition with_config (v : Z) (d : Sim) : Sim :=
  mkSim (sim_devices d) (sim_ports d) (sim_ids d) (sim_handle d) (sim_version d)
        (sim_opened d) v (sim_direction d) (sim_pullup d) (sim_gpio d).
Definition with_direction (v : Z) (d : Sim) : Sim :=
  mkSim (sim_devices d) (sim_ports d) (sim_ids d) (sim_handle d) (sim_version d)
        (sim_opened d) (sim_config d) v (sim_pullup d) (sim_gpio d).
Definition with_pullup (v : Z) (d : Sim) : Sim :=
  mkSim (sim_devices d) (sim_ports d) (sim_ids d) (sim_handle d) (sim_version d)
        (sim_opened d) (sim_config d) (sim_direction d) v (sim_gpio d).
Definition with_gpio (v : Z) (d : Sim) : Sim :=
  mkSim (sim_devices d) (sim_ports d) (sim_ids d) (sim_handle d) (sim_version d)
        (sim_opened d) (sim_config d) (sim_direction d) (sim_pullup d) v.

(** The status a call on an int that is not an open handle returns. *)
Definition SIM_INVALID_HANDLE : Z := -9.

(** A call that takes a handle: the binding raises [TypeError] for [None],
    the library answers an int that is no open handle with a status, and
    an open handle reaches the device. *)
Definition on_handle {A} (h : option Z) (d : Sim) (invalid : A)
    (f : answer Sim A) : answer Sim A :=
  match h with
  | None => (inl "TypeError", d)
  | Some z => if is_open d z then f else (inr invalid, d)
  end.

(** A register holds the low eight bits of what is written to it. *)
Definition u08 (v : Z) : Z := Z.land v 255.

Definition sim_open (p : Z) (d : Sim) : answer Sim Z :=
  let h := sim_handle d p in
  (inr h, if 0 <? h then with_opened (h :: sim_opened d) d else d).

Definition forget (h : option Z) (l : list Z) : list Z :=
  match h with
  | Some z => filter (fun z' => negb (z' =? z)) l
  | None => l
  end.

Definition sim_close (h : option Z) (d : Sim) : answer Sim Z :=
  on_handle h d SIM_INVALID_HANDLE (inr 1, with_opened (forget h (sim_opened d)) d).

(** The pin constants are one bit each, bit [i] for pin [i] of the six, and
    GPIO-only mode is [0x00]. *)
#[export] Instance SimDriver : AardvarkPy Sim := {
  AA_GPIO_SCL := 0x01;
  AA_GPIO_SDA := 0x02;
  AA_GPIO_MISO := 0x04;
  AA_GPIO_SCK := 0x08;
  AA_GPIO_MOSI := 0x10;
  AA_GPIO_SS := 0x20;
  AA_CONFIG_GPIO_ONLY := 0x00;
  aa_find_devices_ext := fun _ _ d => (inr (sim_devices d, sim_ports d, sim_ids d), d);
  aa_open := sim_open;
  aa_version := fun h d => on_handle h d (SIM_INVALID_HANDLE, 0) (inr (sim_version d), d);
  aa_configure := fun h c d => on_handle h d SIM_INVALID_HANDLE (inr c, with_config (u08 c) d);
  aa_gpio_direction := fun h m d => on_handle h d SIM_INVALID_HANDLE (inr 0, with_direction (u08 m) d);
  aa_gpio_pullup := fun h m d => on_handle h d SIM_INVALID_HANDLE (inr 0, with_pullup (u08 m) d);
  aa_gpio_get := fun h d => on_handle h d SIM_INVALID_HANDLE (inr (sim_gpio d), d);
  aa_gpio_set := fun h v d => on_handle h d SIM_INVALID_HANDLE (inr 0, with_gpio (u08 v) d);
  aa_close := sim_close
}.

(** A world before [__init__] has run: the attributes are not assigned. *)
Definition blank : Self := mkSelf 0 false None None None None.

Definition fresh {D} (d : D) (tr : list Event) (o : list LogLine) : World D :=
  mkWorld blank d tr o.

(** A small bench: one adapter on port 0 that opens with handle 1, and a
    register with other pins' bits set. *)
Definition bench : Sim :=
  mkSim 1 [0] [2237000000] (fun p => if p =? 0 then 1 else -7) (0, 0) [] 0 0 0 0xFF.

(** ** Notions the properties are stated with *)

(** The ordered set of pin names. *)
Definition PIN_NAMES : list string := ["SCL"; "SDA"; "MISO"; "SCK"; "MOSI"; "SS"].

Definition lower_char (c : ascii) : ascii :=
  let n := N_of_ascii c in
  if ((65 <=? n) && (n <=? 90))%N then ascii_of_N (n + 32) else c.

Fixpoint lower (s : string) : string :=
  match s with
  | EmptyString => EmptyString
  | String c s' => String (lower_char c) (lower s')
  end.

(** Two strings are the same name whatever the case of their letters. *)
Definition same_name (s t : string) : bool := String.eqb (lower s) (lower t).

Definition names_a_pin (s : string) : bool := existsb (same_name s) PIN_NAMES.

(** A selector is an integer index 0-5 or a pin name in any letter case. *)
Definition valid_selector (pin : pyval) : bool :=
  match pin with
  | PyInt z => (0 <=? z) && (z <=? 5)
  | PyStr s => names_a_pin s
  | PyOther => false
  end.



(** A run fails with an error of kind [k]. *)
Definition fails_with {D A} (k : ErrorKind) (r : (exn + A) * World D) : Prop :=
  exists e, fst r = inl e /\ error_kind e = Some k.

(** The two operations that drive the pin. *)
Inductive Op : Type := SetLow | SetHigh.

(** The pin operations of the class. *)
Inductive PinOp : Type :=
| OpSetHigh
| OpSetLow
| OpGetState
| OpPulse (duration_ms : Z).

(** The last operation of a sequence, if there is one. *)
Fixpoint last_op (l : list Op) : option Op :=
  match l with
  | [] => None
  | [o] => Some o
  | _ :: l' => last_op l'
  end.

(** The level an operation drives the physical pin to: set_low() sets the
    bit, set_high() clears it. *)
Definition bit_of (o : Op) : bool :=
  match o with
  | SetLow => true
  | SetHigh => false
  end.

Section Runs.

Context {D : Type} {aa : AardvarkPy D}.

Definition run_op (o : Op) : M D unit :=
  match o with
  | SetLow => set_low
  | SetHigh => set_high
  end.

Fixpoint run_ops (l : list Op) : M D unit :=
  match l with
  | [] => ret tt
  | o :: l' => run_op o ;; run_ops l'
  end.

Definition pin_op (o : PinOp) : M D unit :=
  match o with
  | OpSetHigh => set_high
  | OpSetLow => set_low
  | OpGetState => get_state ;; ret tt
  | OpPulse d => pulse d
  end.



End Runs.

(** The physical bit of the object's pin in the GPIO register. *)
Definition pin_bit (w : World Sim) : bool :=
  match pin_mask (self w) with
  | Some m => negb (Z.land (sim_gpio (drv w)) m =? 0)
  | None => false
  end.

(** An open controller on the simulated adapter: the handle is one the
    device has open and the pin is resolved to a mask within the
    register. *)
Definition ready (w : World Sim) (h m : Z) (name : string) : Prop :=
  handle (self w) = Some h /\ is_open (drv w) h = true /\
  pin_mask (self w) = Some m /\ 0 < m < 256 /\
  pin_name (self w) = Some name.

(** The bench after [AardvarkGPIO(port=0, pin=3, verbose=False)], and
    after closing that controller. *)
Definition bench_opened : World Sim :=
  snd (__init__ 0 (PyInt 3) false (fresh bench [] [])).

Definition bench_closed : World Sim := snd (close bench_opened).

(** The bench with no adapter plugged in, and with an adapter that does
    not open. *)
Definition bench_empty : Sim :=
  mkSim 0 [] [] (fun _ => -7) (0, 0) [] 0 0 0 0.

Definition bench_busy : Sim :=
  mkSim 1 [0] [2237000000] (fun _ => -7) (0, 0) [] 0 0 0 0xFF.

Definition logs (v : bool) (l : list LogLine) : list LogLine := if v then l else [].

(** ** The command line ([main]) *)

(** What [parser.parse_args()] hands to [main]: the port, the pin as
    typed, the quiet flag, the four action flags and the duration. *)
Record Args : Type := mkArgs {
  arg_port : Z;
  arg_pin : string;
  arg_quiet : bool;
  arg_high : bool;
  arg_low : bool;
  arg_get : bool;
  arg_cycle : bool;
  arg_duration : Z
}.

(** The lines [main] prints itself: three on standard output, one on
    standard error. *)
Inductive CliLine : Type :=
| GpioIs (name : string) (is_high : bool)
| PowerCycling (duration : Z)
| PowerCycleComplete
| ErrorLine (e : exn).

(** The world of [main]: the controller's world and what [main] has
    printed, each line with the number of [_log] lines printed before it. *)
Record Cli (D : Type) : Type := mkCli {
  world : World D;
  console : list (nat * CliLine)
}.
Arguments mkCli {D}.
Arguments world {D}.
Arguments console {D}.

Definition C (D A : Type) : Type := Cli D -> (exn + A) * Cli D.

Definition cret {D A} (a : A) : C D A := fun c => (inr a, c).

Definition cbind {D A B} (m : C D A) (k : A -> C D B) : C D B :=
  fun c =>
    match m c with
    | (inr a, c') => k a c'
    | (inl e, c') => (inl e, c')
    end.

(** A method call of the controller inside [main]. *)
Definition lift {D A} (m : M D A) : C D A :=
  fun c => let (r, w') := m (world c) in (r, mkCli w' (console c)).

Definition cprint {D} (l : CliLine) : C D unit :=
  fun c => (inr tt, mkCli (world c)
                      (console c ++ [(List.length (stdout (world c)), l)])).

Declare Scope cli_scope.
Delimit Scope cli_scope with cli.
Notation "x <- m ;; k" := (cbind m (fun x => k))
  (at level 61, m at next level, right associativity) : cli_scope.
Notation "m ;; k" := (cbind m (fun _ => k))
  (at level 61, right associativity) : cli_scope.

(** How a run of [main] ends: it returns, it leaves through
    [sys.exit(code)], or an exception that [except Exception] does not
    catch goes on. *)
Inductive Status : Type :=
| Returned
| Exit (code : Z)
| Uncaught (e : exn).

Section CommandLine.

Context {D : Type} {aa : AardvarkPy D}.

(** The built-in [int] on a [str]: the integer, or None for ValueError. *)
Variable py_int : string -> option Z.

(** Whether an exception class that comes out of a call derives from
    [Exception]. *)
Variable is_Exception : string -> bool.

(** [except Exception]: the module's own errors are ValueError, TypeError
    and RuntimeError. *)
Definition caught (e : exn) : bool :=
  match e with
  | Raised cls => is_Exception cls
  | _ => true
  end.

(** [with AardvarkGPIO(port, pin, verbose) as gpio: body]: a new object is
    constructed and entered; [__exit__] runs when the body returns and when
    it raises, and does not swallow the exception. *)
Definition with_AardvarkGPIO {A} (port : Z) (pin : pyval) (verbose : bool)
    (body : C D A) : C D A :=
  fun c =>
    let w := world c in
    match lift (__init__ port pin verbose ;; __enter__)%py
               (mkCli (mkWorld blank (drv w) (trace w) (stdout w)) (console c)) with
    | (inl e, c1) => (inl e, c1)
    | (inr _, c1) =>
        match body c1 with
        | (inr a, c2) =>
            match lift __exit__ c2 with
            | (inr _, c3) => (inr a, c3)
            | (inl e', c3) => (inl e', c3)
            end
        | (inl e, c2) =>
            match lift __exit__ c2 with
            | (inr _, c3) => (inl e, c3)
            | (inl e', c3) => (inl e', c3)
            end
        end
    end.

(** The [if args.high: ... elif args.cycle: ...] chain. *)
Definition action (args : Args) : C D unit :=
  (if arg_high args then lift set_high
   else if arg_low args then lift set_low
   else if arg_get args then
     state <- lift get_state ;;
     name <- lift self_pin_name ;;
     cprint (GpioIs name state)
   else if arg_cycle args then
     cprint (PowerCycling (arg_duration args)) ;;
     lift set_high ;;
     lift (time_sleep 500) ;;
     lift set_low ;;
     lift (time_sleep (arg_duration args)) ;;
     lift set_high ;;
     cprint PowerCycleComplete
   else cret tt)%cli.

(** [try: pin = int(args.pin)  except ValueError: pin = args.pin] *)
Definition pin_argument (s : string) : pyval :=
  match py_int s with
  | Some z => PyInt z
  | None => PyStr s
  end.

Definition main (args : Args) (c : Cli D) : Status * Cli D :=
  let pin := pin_argument (arg_pin args) in
  match with_AardvarkGPIO (arg_port args) pin (negb (arg_quiet args)) (action args) c with
  | (inr _, c') => (Returned, c')
  | (inl e, c') =>
      if caught e
      then (Exit 1, mkCli (world c')
                      (console c' ++ [(List.length (stdout (world c')), ErrorLine e)]))
      else (Uncaught e, c')
  end.

End CommandLine.

(** The [int] of the bench reads strings of decimal digits, and every
    exception class of the bench derives from [Exception]. *)
Fixpoint digits (s : string) (acc : Z) : option Z :=
  match s with
  | EmptyString => Some acc
  | String c s' =>
      let n := N_of_ascii c in
      if ((48 <=? n) && (n <=? 57))%N
      then digits s' (10 * acc + Z.of_N (n - 48))
      else None
  end.

Definition bench_int (s : string) : option Z :=
  match s with
  | EmptyString => None
  | _ => digits s 0
  end.

Definition bench_exceptions (cls : string) : bool := true.


(** Arguments for the bench: port 0, quiet. *)
Definition bench_args (pin : string) (high low get cycle : bool) (duration : Z) : Args :=
  mkArgs 0 pin true high low get cycle duration.

(** An adapter that has been unplugged: every call into the vendor module
    raises.  The object is one that was opened on it before. *)
Definition Unplugged : AardvarkPy unit := {|
  AA_GPIO_SCL := 0x01;
  AA_GPIO_SDA := 0x02;
  AA_GPIO_MISO := 0x04;
  AA_GPIO_SCK := 0x08;
  AA_GPIO_MOSI := 0x10;
  AA_GPIO_SS := 0x20;
  AA_CONFIG_GPIO_ONLY := 0x00;
  aa_find_devices_ext := fun _ _ d => (inl "OSError", d);
  aa_open := fun _ d => (inl "OSError", d);
  aa_version := fun _ d => (inl "OSError", d);
  aa_configure := fun _ _ d => (inl "OSError", d);
  aa_gpio_direction := fun _ _ d => (inl "OSError", d);
  aa_gpio_pullup := fun _ _ d => (inl "OSError", d);
  aa_gpio_get := fun _ d => (inl "OSError", d);
  aa_gpio_set := fun _ _ d => (inl "OSError", d);
  aa_close := fun _ d => (inl "OSError", d)
|}.

Definition unplugged_world : World unit :=
  mkWorld (mkSelf 0 false (Some 1) (Some "SCK") (Some 8) (Some 3)) tt [] [].

(** ** What a pin operation may do *)

Definition same_handle (h h' : option Z) : bool :=
  match h, h' with
  | Some a, Some b => a =? b
  | None, None => true
  | _, _ => false
  end.

(** The calls of a pin operation: reads and writes of the GPIO register
    with the object's handle, and sleeps. *)
Definition pin_event (h : option Z) (e : Event) : bool :=
  match e with
  | GpioGet h' => same_handle h h'
  | GpioSet h' _ => same_handle h h'
  | TimeSleep _ => true
  | _ => false
  end.

(** From [w] to [w'] the object is untouched, nothing is printed when it
    is not verbose, and the only calls are those of a pin operation. *)
Definition pin_step {D} (w w' : World D) : Prop :=
  self w' = self w /\
  (verbose (self w) = false -> stdout w' = stdout w) /\
  exists t, trace w' = (trace w ++ t)%list /\
            forallb (pin_event (handle (self w))) t = true.

(** ** Pin selectors *)

Lemma lower_upper_char (c : ascii) : lower_char (upper_char c) = lower_char c.
Proof. destruct c as [[] [] [] [] [] [] [] []]; reflexivity. Qed.

Lemma upper_lower_char (c : ascii) : upper_char (lower_char c) = upper_char c.
Proof. destruct c as [[] [] [] [] [] [] [] []]; reflexivity. Qed.

Lemma lower_upper (s : string) : lower (upper s) = lower s.
Proof. induction s as [|c s IH]; simpl; [reflexivity|]. now rewrite lower_upper_char, IH. Qed.

Lemma upper_lower (s : string) : upper (lower s) = upper s.
Proof. induction s as [|c s IH]; simpl; [reflexivity|]. now rewrite upper_lower_char, IH. Qed.

(** Comparing the upper-cased string with a name written in capitals is
    comparing the two whatever the case. *)
Lemma upper_eqb_same_name (s t : string) :
  upper t = t -> String.eqb (upper s) t = same_name s t.
Proof.
  intros Ht. unfold same_name.
  destruct (String.eqb_spec (upper s) t) as [E|E];
    destruct (String.eqb_spec (lower s) (lower t)) as [E'|E']; try reflexivity.
  - exfalso. apply E'. rewrite <- E. symmetry. apply lower_upper.
  - exfalso. apply E. rewrite <- Ht, <- (upper_lower s), <- (upper_lower t).
    now rewrite E'.
Qed.

Section Selector.

Context {D : Type} {aa : AardvarkPy D}.

Lemma keys_GPIO_PINS : keys GPIO_PINS = PIN_NAMES.
Proof. reflexivity. Qed.

Lemma dict_contains_names_a_pin (s : string) :
  dict_contains GPIO_PINS (upper s) = names_a_pin s.
Proof.
  unfold dict_contains, names_a_pin. rewrite keys_GPIO_PINS. simpl.
  now rewrite !upper_eqb_same_name by reflexivity.
Qed.

End Selector.

(** ** Stepping through a run *)

Ltac unfold_monad :=
  cbv [bind ret raise call unwrap set_self set_port set_verbose set_handle
       set_pin_name set_pin_mask set_pin_num self_port self_verbose
       self_handle self_pin_name self_pin_mask self_pin_num print _log
       time_sleep] in *.

(** Case analysis on the next answer of the device or the next test the
    run depends on. *)
Ltac run_step :=
  match goal with
  | |- context [aa_find_devices_ext ?a ?b ?d] =>
      destruct (aa_find_devices_ext a b d) as [[?|[[? ?] ?]] ?] eqn:?
  | |- context [aa_open ?p ?d] => destruct (aa_open p d) as [[?|?] ?] eqn:?
  | |- context [aa_version ?h ?d] => destruct (aa_version h d) as [[?|[? ?]] ?] eqn:?
  | |- context [aa_configure ?h ?c ?d] => destruct (aa_configure h c d) as [[?|?] ?] eqn:?
  | |- context [aa_gpio_direction ?h ?m ?d] =>
      destruct (aa_gpio_direction h m d) as [[?|?] ?] eqn:?
  | |- context [aa_gpio_pullup ?h ?m ?d] => destruct (aa_gpio_pullup h m d) as [[?|?] ?] eqn:?
  | |- context [aa_gpio_get ?h ?d] => destruct (aa_gpio_get h d) as [[?|?] ?] eqn:?
  | |- context [aa_gpio_set ?h ?v ?d] => destruct (aa_gpio_set h v d) as [[?|?] ?] eqn:?
  | |- context [aa_close ?h ?d] => destruct (aa_close h d) as [[?|?] ?] eqn:?
  | |- context [if ?b then _ else _] => destruct b eqn:?
  end.

Ltac run := repeat (simpl; try run_step).

Section Construction.

Context {D : Type} {aa : AardvarkPy D}.

(** Only [handle] is assigned while opening and configuring. *)
Lemma _open_keeps_pin (w : World D) :
  let s := self w in
  let s' := self (snd (_open w)) in
  port s' = port s /\ verbose s' = verbose s /\
  pin_name s' = pin_name s /\ pin_mask s' = pin_mask s /\ pin_num s' = pin_num s.
Proof.
  destruct w as [[p v h n m k] d t o].
  unfold _open, _configure_gpio. unfold_monad. simpl.
  destruct n, m, k; run; repeat split.
Qed.


End Construction.

Section Opening.

Context {D : Type} {aa : AardvarkPy D}.

(** A valid selector resolves to a name of the table, its mask and its
    index, before anything is opened. *)
Lemma __init__resolves (p : Z) (pin : pyval) (v : bool) (w : World D) :
  valid_selector pin = true ->
  exists name m k,
    dict_get GPIO_PINS name = Some m /\ list_item PIN_NAMES k = Some name /\
    __init__ p pin v w =
    _open (mkWorld (mkSelf p v None (Some name) (Some m) (Some k))
                   (drv w) (trace w) (stdout w)).
Proof.
  intros Hv. destruct pin as [z|s|]; simpl in Hv; [| |discriminate].
  - apply andb_true_iff in Hv. destruct Hv as [H0 H5].
    assert (Hz : z = 0 \/ z = 1 \/ z = 2 \/ z = 3 \/ z = 4 \/ z = 5) by lia.
    destruct Hz as [->|[->|[->|[->|[->| ->]]]]];
      (eexists _, _, _; (split; [|split]); [| |reflexivity]; reflexivity).
  - unfold names_a_pin in Hv. apply existsb_exists in Hv.
    destruct Hv as [name [Hin Hs]].
    assert (Hu : upper s = name).
    { apply String.eqb_eq. rewrite upper_eqb_same_name; [exact Hs|].
      simpl in Hin. repeat (destruct Hin as [<-|Hin]; [reflexivity|]).
      destruct Hin. }
    unfold __init__. unfold_monad. simpl "&&". cbv iota.
    rewrite dict_contains_names_a_pin.
    assert (Hn : names_a_pin s = true).
    { unfold names_a_pin. apply existsb_exists. eauto. }
    rewrite Hn, Hu. simpl in Hin.
    repeat (destruct Hin as [<-|Hin];
            [eexists _, _, _; (split; [|split]); [| |reflexivity]; reflexivity|]).
    destruct Hin.
Qed.

End Opening.

Section Resolution.

Context {D : Type} {aa : AardvarkPy D}.

Ltac index_cases i :=
  let Hz := fresh "Hz" in
  assert (Hz : i = 0 \/ i = 1 \/ i = 2 \/ i = 3 \/ i = 4 \/ i = 5) by lia;
  destruct Hz as [->|[->|[->|[->|[->| ->]]]]].

Lemma __init__index (i : Z) (name : string) (p : Z) (v : bool) (w : World D) :
  0 <= i <= 5 ->
  list_item PIN_NAMES i = Some name ->
  __init__ p (PyInt i) v w =
  _open (mkWorld (mkSelf p v None (Some name) (dict_get GPIO_PINS name) (Some i))
                 (drv w) (trace w) (stdout w)).
Proof.
  intros Hi Hname. index_cases i; injection Hname as <-; reflexivity.
Qed.

(** C7.  For every index i in 0-5, constructing with the integer i and
    constructing with the i-th name of SCL, SDA, MISO, SCK, MOSI, SS,
    written in any letter case, are the same run; it leaves the object
    with that name as [pin_name] and the name's entry of the table as
    [pin_mask]. *)
Theorem C7_index_and_name_resolve_alike :
  forall (i : Z) (name s : string) (port : Z) (verbose : bool) (w : World D),
    0 <= i <= 5 ->
    list_item PIN_NAMES i = Some name ->
    same_name s name = true ->
    __init__ port (PyStr s) verbose w = __init__ port (PyInt i) verbose w /\
    pin_name (self (snd (__init__ port (PyInt i) verbose w))) = Some name /\
    pin_mask (self (snd (__init__ port (PyInt i) verbose w))) = dict_get GPIO_PINS name /\
    pin_name (self (snd (__init__ port (PyStr s) verbose w))) = Some name /\
    pin_mask (self (snd (__init__ port (PyStr s) verbose w))) = dict_get GPIO_PINS name.
Proof.
  intros i name s p v w Hi Hname Hs.
  assert (Hu : upper s = name).
  { apply String.eqb_eq. rewrite upper_eqb_same_name; [exact Hs|].
    index_cases i; injection Hname as <-; reflexivity. }
  assert (Heq : __init__ p (PyStr s) v w = __init__ p (PyInt i) v w).
  { unfold __init__ at 1. unfold_monad. cbv beta iota.
    rewrite dict_contains_names_a_pin, Hu.
    assert (Hn : names_a_pin s = true).
    { unfold names_a_pin. apply existsb_exists. exists name. split; [|exact Hs].
      index_cases i; injection Hname as <-; simpl; tauto. }
    rewrite Hn.
    index_cases i; injection Hname as <-; reflexivity. }
  split; [exact Heq|]. rewrite Heq.
  rewrite (__init__index i name p v w Hi Hname).
  match goal with
  | |- context [_open ?W] => destruct (_open_keeps_pin W) as (_ & _ & Hpn & Hpm & _)
  end.
  cbn [self pin_name pin_mask] in Hpn, Hpm. rewrite Hpn, Hpm. repeat split.
Qed.

End Resolution.

Section OpenChecks.

Context {D : Type} {aa : AardvarkPy D}.

(** C5.  Open fails with DeviceNotFound when enumeration returns zero
    devices; otherwise with InvalidArgument when port >= device_count;
    otherwise with DeviceOpenFailed, carrying the driver's code, when the
    driver's open returns a non-positive handle.  The checks come in this
    order: the driver's open is not called before the first two have
    passed.  Open succeeds only when none of the three triggers. *)
Theorem C5_open_checks_in_order :
  forall (w : World D) (n : Z) (ports ids : list Z) (d1 : D),
    aa_find_devices_ext 16 16 (drv w) = (inr (n, ports, ids), d1) ->
    (n = 0 ->
     exists e w', _open w = (inl e, w') /\
       error_kind e = Some DeviceNotFound /\
       trace w' = (trace w ++ [FindDevicesExt 16 16])%list) /\
    (n <> 0 -> n <= port (self w) ->
     exists e w', _open w = (inl e, w') /\
       error_kind e = Some InvalidArgument /\
       trace w' = (trace w ++ [FindDevicesExt 16 16])%list) /\
    (n <> 0 -> port (self w) < n ->
     forall (h : Z) (d2 : D),
       aa_open (port (self w)) d1 = (inr h, d2) -> h <= 0 ->
       exists e w', _open w = (inl e, w') /\
         error_kind e = Some DeviceOpenFailed /\ error_code e = Some h /\
         trace w' = (trace w ++ [FindDevicesExt 16 16; Open (port (self w))])%list) /\
    (forall w', _open w = (inr tt, w') ->
       n <> 0 /\ port (self w) < n /\
       exists h d2, aa_open (port (self w)) d1 = (inr h, d2) /\ 0 < h).
Proof.
  intros [[p v h0 nm mk nk] d t o] n ports ids d1 Hfind. simpl in *.
  unfold _open. unfold_monad. simpl. rewrite Hfind. simpl.
  repeat split.
  - intros ->. simpl. eexists _, _. repeat split.
  - intros Hn Hp. apply Z.eqb_neq in Hn. rewrite Hn.
    apply Z.geb_le in Hp. destruct v; simpl; rewrite Hp; eexists _, _; repeat split.
  - intros Hn Hp h d2 Hopen Hh. apply Z.eqb_neq in Hn. rewrite Hn.
    assert (Hp' : (p >=? n) = false) by (rewrite Z.geb_leb; apply Z.leb_gt; lia).
    apply Z.leb_le in Hh.
    destruct v; simpl; rewrite Hp'; simpl; rewrite Hopen; simpl; rewrite Hh;
      eexists _, _; (repeat split); simpl; now rewrite <- app_assoc.
  - destruct (n =? 0) eqn:Hn; [discriminate|]. apply Z.eqb_neq in Hn. exact Hn.
  - destruct (n =? 0) eqn:Hn; [discriminate|].
    destruct v; simpl in *; destruct (p >=? n) eqn:Hp; try discriminate;
      rewrite Z.geb_leb in Hp; apply Z.leb_gt in Hp; exact Hp.
  - destruct (n =? 0) eqn:Hn; [discriminate|].
    destruct v; simpl in *; (destruct (p >=? n) eqn:Hp; [discriminate|]);
      simpl in *;
      (destruct (aa_open p d1) as [[cls|h] d2]; simpl in *; [discriminate|]);
      (destruct (h <=? 0) eqn:Hh; [discriminate|]);
      exists h, d2; (split; [reflexivity|]); apply Z.leb_gt in Hh; exact Hh.
Qed.

(** C10.  When the driver's open returns a non-positive value, the
    constructor raises its open-failure error after storing that value in
    the handle field.  A later close - also the one of context-manager
    exit and the one of the destructor - takes a handle other than None
    and 0 as open: a negative value is passed to the driver's close, and
    only None and 0 make close do nothing. *)
Theorem C10_failed_open_leaves_handle :
  forall (port : Z) (pin : pyval) (verbose : bool) (w : World D)
         (n : Z) (ports ids : list Z) (d1 : D) (h : Z) (d2 : D),
    valid_selector pin = true ->
    aa_find_devices_ext 16 16 (drv w) = (inr (n, ports, ids), d1) ->
    n <> 0 -> port < n ->
    aa_open port d1 = (inr h, d2) ->
    h <= 0 ->
    exists w',
      __init__ port pin verbose w = (inl (FailedToOpen port h), w') /\
      handle (self w') = Some h /\ drv w' = d2 /\
      __exit__ w' = close w' /\ __del__ w' = close w' /\
      (h = 0 -> close w' = (inr tt, w')) /\
      (h <> 0 ->
       forall r d3, aa_close (Some h) d2 = (r, d3) ->
       exists r' w'', close w' = (r', w'') /\
         trace w'' = (trace w' ++ [Close (Some h)])%list /\ drv w'' = d3) /\
      (forall w0 : World D,
         handle (self w0) = None \/ handle (self w0) = Some 0 ->
         close w0 = (inr tt, w0)).
Proof.
  intros p pin v w n ports ids d1 h d2 Hv Hfind Hn Hp Hopen Hh.
  destruct (__init__resolves p pin v w Hv) as (name & m & k & Hm & Hk & ->).
  apply Z.eqb_neq in Hn.
  assert (Hp' : (p >=? n) = false) by (rewrite Z.geb_leb; apply Z.leb_gt; lia).
  assert (Hh' : (h <=? 0) = true) by (apply Z.leb_le; exact Hh).
  unfold _open. unfold_monad. simpl. rewrite Hfind. simpl. rewrite Hn.
  destruct v; simpl; rewrite Hp'; simpl; rewrite Hopen; simpl; rewrite Hh';
    (eexists; split; [reflexivity|]); simpl;
    (split; [reflexivity|]); (split; [reflexivity|]);
    (split; [reflexivity|]); (split; [reflexivity|]); (split; [|split]).
  all: try (intros ->; reflexivity).
  all: try (intros Hne r d3 Hclose; unfold close; unfold_monad; simpl;
            apply Z.eqb_neq in Hne; rewrite Hne; simpl; rewrite Hclose; simpl;
            destruct r; simpl; eexists _, _; repeat split).
  all: destruct w0 as [[p0 v0 h0 n0 m0 k0] d0 t0 o0]; simpl;
    intros [->| ->]; reflexivity.
Qed.

End OpenChecks.

Section Closing.

Context {D : Type} {aa : AardvarkPy D}.

(** Closing an open controller: the handle goes to the driver's close
    and the attribute becomes None. *)
Lemma close_open_controller (w w1 : World D) (h : Z) :
  handle (self w) = Some h -> 0 < h ->
  close w = (inr tt, w1) ->
  exists r d', aa_close (Some h) (drv w) = (inr r, d') /\
    w1 = mkWorld (mkSelf (port (self w)) (verbose (self w)) None (pin_name (self w))
                         (pin_mask (self w)) (pin_num (self w)))
                 d' (trace w ++ [Close (Some h)])
                 (stdout w ++ logs (verbose (self w)) [LogClosed]).
Proof.
  destruct w as [[p v h0 nm mk nk] d t o]. simpl. intros -> Hh.
  unfold close. unfold_monad. simpl.
  assert (Hz : (h =? 0) = false) by (apply Z.eqb_neq; lia). rewrite Hz. simpl.
  destruct (aa_close (Some h) d) as [[cls|r] d']; simpl; [discriminate|].
  destruct v; simpl; intros H; injection H as <-; eexists _, _;
    (split; [reflexivity|]); rewrite ?app_nil_r; reflexivity.
Qed.

Lemma pin_op_after_close (o : PinOp) (p : Z) (v : bool) (nm : option string)
    (mk nk : option Z) (d : D) (t : list Event) (l : list LogLine) :
  let w1 := mkWorld (mkSelf p v None nm mk nk) d t l in
  (forall cls d', aa_gpio_get None d = (inl cls, d') ->
     pin_op o w1 = (inl (Raised cls), mkWorld (self w1) d' (t ++ [GpioGet None]) l)) /\
  (forall e w2, pin_op o w1 = (inl e, w2) -> exists cls, e = Raised cls) /\
  (exists t', trace (snd (pin_op o w1)) = (t ++ GpioGet None :: t')%list).
Proof.
  intros w1. subst w1. repeat split.
  - intros cls d' Hget.
    destruct o; unfold pin_op, pulse, set_high, set_low, get_state; unfold_monad;
      simpl; rewrite Hget; reflexivity.
  - intros e w2.
    destruct o; unfold pin_op, pulse, set_high, set_low, get_state; unfold_monad;
      destruct nm, mk, v; run; intros H; try discriminate;
      injection H as <- _; eexists; reflexivity.
  - destruct o; unfold pin_op, pulse, set_high, set_low, get_state; unfold_monad;
      destruct nm, mk, v; run;
      repeat rewrite <- app_assoc; simpl; eexists; reflexivity.
Qed.

(** C8, as the code has it.  Closing an open controller twice does not
    raise: the second call does nothing and calls nothing.  After close
    the handle is None, and set_high, set_low, get_state and pulse make no
    check of it: each starts by passing None to the driver's register
    read; when that call raises, its exception is what the operation
    fails with, and an operation fails with nothing but an exception that
    comes out of a call it makes. *)
Theorem C8_close_twice_then_pin_operations :
  forall (w w1 : World D) (h : Z),
    handle (self w) = Some h -> 0 < h ->
    close w = (inr tt, w1) ->
    handle (self w1) = None /\
    close w1 = (inr tt, w1) /\
    forall o : PinOp,
      (forall cls d', aa_gpio_get None (drv w1) = (inl cls, d') ->
         pin_op o w1 =
         (inl (Raised cls),
          mkWorld (self w1) d' (trace w1 ++ [GpioGet None]) (stdout w1))) /\
      (forall e w2, pin_op o w1 = (inl e, w2) ->
         error_kind e = None /\ exists cls, e = Raised cls) /\
      (exists t', trace (snd (pin_op o w1)) = (trace w1 ++ GpioGet None :: t')%list).
Proof.
  intros w w1 h Hh Hpos Hclose.
  destruct (close_open_controller w w1 h Hh Hpos Hclose) as (r & d' & _ & ->).
  split; [reflexivity|]. split; [reflexivity|].
  intros o.
  destruct (pin_op_after_close o (port (self w)) (verbose (self w)) (pin_name (self w))
              (pin_mask (self w)) (pin_num (self w)) d'
              (trace w ++ [Close (Some h)])
              (stdout w ++ logs (verbose (self w)) [LogClosed])) as (H1 & H2 & H3).
  split; [exact H1|]. split; [|exact H3].
  intros e w2 He. destruct (H2 e w2 He) as [cls ->]. split; [reflexivity|].
  exists cls. reflexivity.
Qed.


End Closing.

(** C8 as stated does not hold: on the bench, set_high() on the closed
    controller does not fail with a NotOpen error (it fails with the
    TypeError the binding raises for a None handle). *)
Lemma C8_not_open_error_absent :
  fst (__init__ 0 (PyInt 3) false (fresh bench [] [])) = inr tt /\
  fst (close bench_opened) = inr tt /\
  fst (close bench_closed) = inr tt /\
  set_high bench_closed =
    (inl (Raised "TypeError"),
     mkWorld (self bench_closed) (drv bench_closed)
             (trace bench_closed ++ [GpioGet None]) (stdout bench_closed)) /\
  ~ fails_with NotOpen (set_high bench_closed) /\
  ~ fails_with NotOpen (set_low bench_closed) /\
  ~ fails_with NotOpen (get_state bench_closed) /\
  ~ fails_with NotOpen (pulse 100 bench_closed).
Proof.
  do 4 (split; [reflexivity|]).
  repeat split; intros [e [He Hk]]; vm_compute in He; injection He as <-;
    discriminate Hk.
Qed.


(** ** The GPIO register *)

Lemma testbit_255 (i : Z) : Z.testbit 255 i = (0 <=? i) && (i <? 8).
Proof.
  destruct (Z.ltb_spec i 0) as [Hn|Hn].
  - rewrite Z.testbit_neg_r by lia. destruct (Z.leb_spec 0 i); [lia|reflexivity].
  - change 255 with (Z.ones 8).
    destruct (Z.ltb_spec i 8).
    + rewrite Z.ones_spec_low by lia. destruct (Z.leb_spec 0 i); [reflexivity|lia].
    + rewrite Z.ones_spec_high by lia. destruct (Z.leb_spec 0 i); reflexivity.
Qed.

Lemma u08_small (v : Z) : 0 <= v < 256 -> u08 v = v.
Proof.
  intros Hv. unfold u08. change 255 with (Z.ones 8).
  rewrite Z.land_ones by lia. apply Z.mod_small. exact Hv.
Qed.

(** Bits of a value below 256 lie within the register. *)
Lemma testbit_small (v i : Z) : 0 <= v < 256 -> Z.testbit v i = true -> (0 <=? i) && (i <? 8) = true.
Proof.
  intros Hv Hb. rewrite <- (u08_small v Hv) in Hb. unfold u08 in Hb.
  rewrite Z.land_spec, testbit_255 in Hb. apply andb_true_iff in Hb. tauto.
Qed.

(** Clearing the mask's bits leaves none of them set. *)
Lemma cleared_bit (r m : Z) : Z.land (u08 (Z.land r (Z.lnot m))) m = 0.
Proof.
  apply Z.bits_inj'. intros i Hi. unfold u08.
  rewrite !Z.land_spec, Z.lnot_spec, Z.bits_0 by exact Hi.
  destruct (Z.testbit r i), (Z.testbit m i), (Z.testbit 255 i); reflexivity.
Qed.

(** Setting the mask's bits leaves all of them set. *)
Lemma set_bit (r m : Z) : 0 < m < 256 -> Z.land (u08 (Z.lor r m)) m = m.
Proof.
  intros Hm. apply Z.bits_inj'. intros i Hi. unfold u08.
  rewrite !Z.land_spec, Z.lor_spec.
  destruct (Z.testbit m i) eqn:Hb.
  - rewrite (testbit_255 i), (testbit_small m i) by (lia || exact Hb).
    now rewrite orb_true_r.
  - now rewrite andb_false_r.
Qed.

(** Outside the mask, clearing and setting leave an 8-bit register as it
    was. *)
Lemma clear_frame (r m i : Z) :
  0 <= r < 256 -> Z.testbit m i = false ->
  Z.testbit (u08 (Z.land r (Z.lnot m))) i = Z.testbit r i.
Proof.
  intros Hr Hb. unfold u08.
  destruct (Z.ltb_spec i 0) as [Hn|Hn]; [now rewrite !Z.testbit_neg_r by lia|].
  rewrite !Z.land_spec, Z.lnot_spec, Hb by exact Hn. simpl. rewrite andb_true_r.
  destruct (Z.testbit r i) eqn:Hri; [|reflexivity].
  rewrite testbit_255. apply (testbit_small r i Hr Hri).
Qed.

Lemma set_frame (r m i : Z) :
  0 <= r < 256 -> Z.testbit m i = false ->
  Z.testbit (u08 (Z.lor r m)) i = Z.testbit r i.
Proof.
  intros Hr Hb. unfold u08.
  rewrite !Z.land_spec, Z.lor_spec, Hb, orb_false_r.
  destruct (Z.testbit r i) eqn:Hri; [|reflexivity].
  rewrite testbit_255. apply (testbit_small r i Hr Hri).
Qed.

(** ** Pin operations on the simulated adapter *)

Ltac open_world w :=
  let p := fresh "p" in let v := fresh "v" in let h0 := fresh "h0" in
  let nm := fresh "nm" in let mk := fresh "mk" in let nk := fresh "nk" in
  let d := fresh "d" in let t := fresh "t" in let o := fresh "o" in
  destruct w as [[p v h0 nm mk nk] d t o].

Lemma set_high_ready (w : World Sim) (h m : Z) (name : string) :
  ready w h m name ->
  let r := sim_gpio (drv w) in
  let r' := u08 (Z.land r (Z.lnot m)) in
  set_high w =
  (inr tt,
   mkWorld (self w) (with_gpio r' (drv w))
     (trace w ++ [GpioGet (Some h); GpioSet (Some h) (Z.land r (Z.lnot m)); GpioGet (Some h)])
     (stdout w ++ logs (verbose (self w)) [LogSetHigh name; LogSetHighPhysical r r' m])).
Proof.
  open_world w. unfold ready. simpl. intros (-> & Hopen & -> & Hm & ->).
  unfold set_high. unfold_monad. simpl. unfold on_handle, is_open in *.
  rewrite Hopen. simpl. rewrite Hopen. simpl. rewrite Hopen.
  destruct v; simpl; rewrite <- ?app_assoc, ?app_nil_r; reflexivity.
Qed.

Lemma set_low_ready (w : World Sim) (h m : Z) (name : string) :
  ready w h m name ->
  let r := sim_gpio (drv w) in
  let r' := u08 (Z.lor r m) in
  set_low w =
  (inr tt,
   mkWorld (self w) (with_gpio r' (drv w))
     (trace w ++ [GpioGet (Some h); GpioSet (Some h) (Z.lor r m); GpioGet (Some h)])
     (stdout w ++ logs (verbose (self w)) [LogSetLow name; LogSetLowPhysical r r' m])).
Proof.
  open_world w. unfold ready. simpl. intros (-> & Hopen & -> & Hm & ->).
  unfold set_low. unfold_monad. simpl. unfold on_handle, is_open in *.
  rewrite Hopen. simpl. rewrite Hopen. simpl. rewrite Hopen.
  destruct v; simpl; rewrite <- ?app_assoc, ?app_nil_r; reflexivity.
Qed.

Lemma get_state_ready (w : World Sim) (h m : Z) (name : string) :
  ready w h m name ->
  let r := sim_gpio (drv w) in
  let is_high := negb (Z.land r m =? 0) in
  get_state w =
  (inr is_high,
   mkWorld (self w) (drv w) (trace w ++ [GpioGet (Some h)])
     (stdout w ++ logs (verbose (self w)) [LogReadback r; LogPinLevel name m is_high])).
Proof.
  open_world w. unfold ready. simpl. intros (-> & Hopen & -> & Hm & ->).
  unfold get_state. unfold_monad. simpl. unfold on_handle, is_open in *.
  rewrite Hopen.
  destruct v; simpl; rewrite <- ?app_assoc, ?app_nil_r; reflexivity.
Qed.

(** The pin operations keep an open controller open. *)
Lemma ready_with_gpio (w : World Sim) (h m : Z) (name : string) (r : Z)
    (t : list Event) (o : list LogLine) :
  ready w h m name -> ready (mkWorld (self w) (with_gpio r (drv w)) t o) h m name.
Proof. unfold ready. simpl. tauto. Qed.

(** C2.  On every open controller and for every value of the register,
    set_low() followed by get_state() returns true and set_high() followed
    by get_state() returns false. *)
Theorem C2_get_state_after_set :
  forall (w : World Sim) (h m : Z) (name : string),
    ready w h m name ->
    (exists w', (set_low ;; get_state) w = (inr true, w')) /\
    (exists w', (set_high ;; get_state) w = (inr false, w')).
Proof.
  intros w h m name Hr. pose proof Hr as (_ & _ & _ & Hm & _).
  split; unfold bind.
  - rewrite (set_low_ready w h m name Hr).
    rewrite (get_state_ready _ h m name (ready_with_gpio w h m name _ _ _ Hr)).
    simpl. rewrite set_bit by exact Hm.
    assert (Hz : (m =? 0) = false) by (apply Z.eqb_neq; lia).
    rewrite Hz. eexists. reflexivity.
  - rewrite (set_high_ready w h m name Hr).
    rewrite (get_state_ready _ h m name (ready_with_gpio w h m name _ _ _ Hr)).
    simpl. rewrite cleared_bit. eexists. reflexivity.
Qed.

(** C3.  On every open controller and for every 8-bit value of the
    register, also with other pins' bits set, set_high() and set_low()
    return and leave every bit of the GPIO register outside pin_mask as
    it was. *)
Theorem C3_other_bits_unchanged :
  forall (w : World Sim) (h m : Z) (name : string),
    ready w h m name ->
    0 <= sim_gpio (drv w) < 256 ->
    fst (set_high w) = inr tt /\ fst (set_low w) = inr tt /\
    forall i : Z,
      Z.testbit m i = false ->
      Z.testbit (sim_gpio (drv (snd (set_high w)))) i = Z.testbit (sim_gpio (drv w)) i /\
      Z.testbit (sim_gpio (drv (snd (set_low w)))) i = Z.testbit (sim_gpio (drv w)) i.
Proof.
  intros w h m name Hr H8.
  rewrite (set_high_ready w h m name Hr), (set_low_ready w h m name Hr). simpl.
  split; [reflexivity|]. split; [reflexivity|].
  intros i Hi. split; [apply clear_frame|apply set_frame]; assumption.
Qed.

(** ** Construction on the simulated adapter *)

(** The masks of the table lie within the register. *)
Lemma GPIO_PINS_mask (name : string) (m : Z) :
  dict_get (GPIO_PINS (aa := SimDriver)) name = Some m -> 0 < m < 256.
Proof.
  unfold GPIO_PINS. simpl.
  repeat match goal with
         | |- context [if ?b then _ else _] => destruct b
         end; intros H; try discriminate; injection H as <-; lia.
Qed.

(** With a valid selector, a device found, the port in range and a
    positive handle, construction succeeds; it leaves an open controller
    whose pin's bit is clear, after these calls. *)
Lemma __init__ready (p : Z) (pin : pyval) (v : bool) (w0 : World Sim) :
  valid_selector pin = true ->
  sim_devices (drv w0) <> 0 ->
  p < sim_devices (drv w0) ->
  0 < sim_handle (drv w0) p ->
  let h := sim_handle (drv w0) p in
  exists w name m,
    __init__ p pin v w0 = (inr tt, w) /\
    ready w h m name /\
    Z.land (sim_gpio (drv w)) m = 0 /\
    trace w =
    (trace w0 ++
     [FindDevicesExt 16 16; Open p; Version (Some h); Configure (Some h) 0;
      GpioDirection (Some h) m; GpioPullup (Some h) 0; GpioGet (Some h);
      GpioSet (Some h) (Z.land (sim_gpio (drv w0)) (Z.lnot m))])%list.
Proof.
  intros Hv Hn Hp Hh h.
  destruct (__init__resolves p pin v w0 Hv) as (name & m & k & Hm & Hk & ->).
  pose proof (GPIO_PINS_mask name m Hm) as Hm8.
  apply Z.eqb_neq in Hn.
  assert (Hp' : (p >=? sim_devices (drv w0)) = false)
    by (rewrite Z.geb_leb; apply Z.leb_gt; lia).
  assert (Hle : (h <=? 0) = false) by (apply Z.leb_gt; exact Hh).
  assert (Hlt : (0 <? h) = true) by (apply Z.ltb_lt; exact Hh).
  open_world w0. simpl in *. fold h.
  unfold _open, _configure_gpio. unfold_monad. simpl. rewrite Hn.
  exists (mkWorld (mkSelf p v (Some h) (Some name) (Some m) (Some k))
            (with_gpio (u08 (Z.land (sim_gpio d) (Z.lnot m)))
               (with_pullup 0 (with_direction (u08 m) (with_config 0
                  (with_opened (h :: sim_opened d) d)))))
            (t ++ [FindDevicesExt 16 16; Open p; Version (Some h); Configure (Some h) 0;
                   GpioDirection (Some h) m; GpioPullup (Some h) 0; GpioGet (Some h);
                   GpioSet (Some h) (Z.land (sim_gpio d) (Z.lnot m))])
            (o ++ logs v [LogFound (sim_devices d); LogOpened p h;
                          LogVersion (fst (sim_version d)) (snd (sim_version d));
                          LogGpioOnly; LogConfigured name k; LogInitLow])),
         name, m.
  split; [|split; [|split]].
  - destruct v; simpl; rewrite Hp'; simpl; unfold sim_open; fold h;
      rewrite Hle, Hlt; simpl; unfold on_handle, is_open; simpl;
      repeat (progress (rewrite ?Z.eqb_refl; simpl));
      rewrite <- ?app_assoc, ?app_nil_r; reflexivity.
  - unfold ready, is_open. simpl. rewrite Z.eqb_refl. repeat split; try reflexivity; lia.
  - simpl. apply cleared_bit.
  - reflexivity.
Qed.

(** C4.  After every successful construction - valid selector, device
    found, port in range, positive handle - and whatever the register
    held before, get_state() returns false. *)
Theorem C4_get_state_after_construction :
  forall (port : Z) (pin : pyval) (verbose : bool) (w0 : World Sim),
    valid_selector pin = true ->
    sim_devices (drv w0) <> 0 ->
    port < sim_devices (drv w0) ->
    0 < sim_handle (drv w0) port ->
    exists w w',
      __init__ port pin verbose w0 = (inr tt, w) /\
      get_state w = (inr false, w').
Proof.
  intros p pin v w0 Hv Hn Hp Hh.
  destruct (__init__ready p pin v w0 Hv Hn Hp Hh) as (w & name & m & Hinit & Hr & Hbit & _).
  exists w. eexists. split; [exact Hinit|].
  rewrite (get_state_ready w _ m name Hr). rewrite Hbit. reflexivity.
Qed.

(** ** The physical bit follows the last operation *)

Lemma run_op_ready (o : Op) (w : World Sim) (h m : Z) (name : string) :
  ready w h m name ->
  exists w', run_op o w = (inr tt, w') /\ ready w' h m name /\ pin_bit w' = bit_of o.
Proof.
  intros Hr. pose proof Hr as (_ & _ & Hmask & Hm & _).
  destruct o; simpl.
  - rewrite (set_low_ready w h m name Hr). eexists. split; [reflexivity|].
    split; [apply ready_with_gpio; exact Hr|].
    unfold pin_bit. simpl. rewrite Hmask, set_bit by exact Hm.
    apply negb_true_iff, Z.eqb_neq. lia.
  - rewrite (set_high_ready w h m name Hr). eexists. split; [reflexivity|].
    split; [apply ready_with_gpio; exact Hr|].
    unfold pin_bit. simpl. rewrite Hmask, cleared_bit. reflexivity.
Qed.

Lemma last_op_cons (o : Op) (l : list Op) : exists o', last_op (o :: l) = Some o'.
Proof.
  revert o. induction l as [|o1 l IH]; intros o.
  - exists o. reflexivity.
  - destruct (IH o1) as [o' E]. exists o'. exact E.
Qed.

Lemma run_ops_ready (ops : list Op) :
  forall (w : World Sim) (h m : Z) (name : string),
    ready w h m name ->
    exists w', run_ops ops w = (inr tt, w') /\ ready w' h m name /\
      pin_bit w' = match last_op ops with
                   | Some o => bit_of o
                   | None => pin_bit w
                   end.
Proof.
  induction ops as [|o ops IH]; intros w h m name Hr.
  - exists w. split; [reflexivity|]. split; [exact Hr|reflexivity].
  - destruct (run_op_ready o w h m name Hr) as (w1 & Hrun & Hr1 & Hbit).
    destruct (IH w1 h m name Hr1) as (w' & Hrun' & Hr' & Hbit').
    exists w'. split; [|split; [exact Hr'|]].
    + simpl. unfold bind. rewrite Hrun. exact Hrun'.
    + rewrite Hbit'. destruct ops as [|o' ops']; [simpl; exact Hbit|].
      change (last_op (o :: o' :: ops')) with (last_op (o' :: ops')).
      destruct (last_op_cons o' ops') as [o'' ->]. reflexivity.
Qed.

(** C1.  After construction and any sequence of set_low() and set_high()
    calls, the pin's bit in the GPIO register is 1 exactly when set_low()
    was the last of them, and 0 exactly when set_high() was the last of
    them or there was none since the pin was configured. *)
Theorem C1_physical_bit_follows_last_operation :
  forall (port : Z) (pin : pyval) (verbose : bool) (w0 : World Sim) (ops : list Op),
    valid_selector pin = true ->
    sim_devices (drv w0) <> 0 ->
    port < sim_devices (drv w0) ->
    0 < sim_handle (drv w0) port ->
    exists w w',
      __init__ port pin verbose w0 = (inr tt, w) /\
      run_ops ops w = (inr tt, w') /\
      (pin_bit w' = true <-> last_op ops = Some SetLow) /\
      (pin_bit w' = false <-> (last_op ops = Some SetHigh \/ ops = [])).
Proof.
  intros p pin v w0 ops Hv Hn Hp Hh.
  destruct (__init__ready p pin v w0 Hv Hn Hp Hh) as (w & name & m & Hinit & Hr & Hbit & _).
  destruct (run_ops_ready ops w _ m name Hr) as (w' & Hrun & Hr' & Hlast).
  exists w, w'. split; [exact Hinit|]. split; [exact Hrun|].
  assert (H0 : pin_bit w = false).
  { unfold pin_bit. destruct Hr as (_ & _ & -> & _). rewrite Hbit. reflexivity. }
  rewrite Hlast.
  destruct ops as [|o ops]; [simpl; rewrite H0|].
  - intuition discriminate.
  - destruct (last_op (o :: ops)) as [[]|] eqn:E; simpl.
    + intuition discriminate.
    + intuition discriminate.
    + exfalso. destruct (last_op_cons o ops) as [o' E']. congruence.
Qed.

(** ** The properties at work on the bench *)

Example no_adapter_plugged_in :
  fst (__init__ 0 (PyInt 0) true (fresh bench_empty [] [])) = inl NoAdaptersFound.
Proof. reflexivity. Qed.

Example port_beyond_the_adapters :
  fst (__init__ 1 (PyStr "ss") true (fresh bench [] [])) = inl (PortNotAvailable 1 1).
Proof. reflexivity. Qed.

Lemma ready_bench_opened : ready bench_opened 1 8 "SCK".
Proof. repeat split. Defined.

Lemma C1_physical_bit_follows_last_operation_witness :
  exists w w',
    __init__ 0 (PyInt 3) false (fresh bench [] []) = (inr tt, w) /\
    run_ops [SetLow; SetHigh; SetLow] w = (inr tt, w') /\
    (pin_bit w' = true <-> last_op [SetLow; SetHigh; SetLow] = Some SetLow) /\
    (pin_bit w' = false <->
     (last_op [SetLow; SetHigh; SetLow] = Some SetHigh \/ [SetLow; SetHigh; SetLow] = [])).
Proof.
  apply (C1_physical_bit_follows_last_operation 0 (PyInt 3) false (fresh bench [] [])
           [SetLow; SetHigh; SetLow]); simpl; [reflexivity | lia | lia | lia].
Defined.

Lemma C2_get_state_after_set_witness :
  (exists w', (set_low ;; get_state) bench_opened = (inr true, w')) /\
  (exists w', (set_high ;; get_state) bench_opened = (inr false, w')).
Proof.
  apply (C2_get_state_after_set bench_opened 1 8 "SCK"). exact ready_bench_opened.
Defined.

Lemma C3_other_bits_unchanged_witness :
  0 <= sim_gpio (drv bench_opened) < 256 /\
  fst (set_high bench_opened) = inr tt /\ fst (set_low bench_opened) = inr tt /\
  forall i : Z,
    Z.testbit 8 i = false ->
    Z.testbit (sim_gpio (drv (snd (set_high bench_opened)))) i =
      Z.testbit (sim_gpio (drv bench_opened)) i /\
    Z.testbit (sim_gpio (drv (snd (set_low bench_opened)))) i =
      Z.testbit (sim_gpio (drv bench_opened)) i.
Proof.
  assert (H8 : 0 <= sim_gpio (drv bench_opened) < 256) by (change (0 <= 247 < 256); lia).
  split; [exact H8|].
  apply (C3_other_bits_unchanged bench_opened 1 8 "SCK" ready_bench_opened H8).
Defined.

Lemma C4_get_state_after_construction_witness :
  exists w w',
    __init__ 0 (PyStr "mosi") true (fresh bench [] []) = (inr tt, w) /\
    get_state w = (inr false, w').
Proof.
  apply (C4_get_state_after_construction 0 (PyStr "mosi") true (fresh bench [] []));
    simpl; [reflexivity | lia | lia | lia].
Defined.

Lemma C5_open_checks_in_order_witness :
  exists e w',
    _open (fresh bench_busy [] []) = (inl e, w') /\
    error_kind e = Some DeviceOpenFailed /\ error_code e = Some (-7) /\
    trace w' = [FindDevicesExt 16 16; Open 0].
Proof.
  destruct (C5_open_checks_in_order (aa := SimDriver) (fresh bench_busy [] []) 1 [0]
              [2237000000] bench_busy) as (_ & _ & H & _); [reflexivity|].
  apply (H ltac:(simpl; lia) ltac:(simpl; lia) (-7) bench_busy); [reflexivity | lia].
Defined.


Lemma C7_index_and_name_resolve_alike_witness :
  __init__ 0 (PyStr "sCk") false (fresh bench [] []) =
    __init__ 0 (PyInt 3) false (fresh bench [] []) /\
  pin_name (self (snd (__init__ 0 (PyInt 3) false (fresh bench [] [])))) = Some "SCK" /\
  pin_mask (self (snd (__init__ 0 (PyInt 3) false (fresh bench [] [])))) =
    dict_get GPIO_PINS "SCK" /\
  pin_name (self (snd (__init__ 0 (PyStr "sCk") false (fresh bench [] [])))) = Some "SCK" /\
  pin_mask (self (snd (__init__ 0 (PyStr "sCk") false (fresh bench [] [])))) =
    dict_get GPIO_PINS "SCK".
Proof.
  apply (C7_index_and_name_resolve_alike 3 "SCK" "sCk" 0 false (fresh bench [] []));
    [lia | reflexivity | reflexivity].
Defined.

Lemma C8_close_twice_then_pin_operations_witness :
  handle (self bench_closed) = None /\
  close bench_closed = (inr tt, bench_closed).
Proof.
  destruct (C8_close_twice_then_pin_operations (aa := SimDriver)
              bench_opened bench_closed 1)
    as (H1 & H2 & _); [reflexivity | lia | reflexivity |].
  split; [exact H1 | exact H2].
Defined.


Lemma C10_failed_open_leaves_handle_witness :
  exists w',
    __init__ 0 (PyInt 3) false (fresh bench_busy [] []) = (inl (FailedToOpen 0 (-7)), w') /\
    handle (self w') = Some (-7) /\
    trace (snd (__del__ w')) = [FindDevicesExt 16 16; Open 0; Close (Some (-7))].
Proof.
  destruct (C10_failed_open_leaves_handle (aa := SimDriver) 0 (PyInt 3) false
              (fresh bench_busy [] [])
              1 [0] [2237000000] bench_busy (-7) bench_busy)
    as (w' & Hinit & Hh & _ & _ & Hdel & _ & Hclose & _);
    [reflexivity | reflexivity | lia | lia | reflexivity | lia |].
  exists w'. split; [exact Hinit|]. split; [exact Hh|].
  rewrite Hdel.
  destruct (Hclose ltac:(lia) (inr SIM_INVALID_HANDLE) bench_busy) as (r' & w'' & Hc & Ht & _);
    [reflexivity|].
  rewrite Hc. simpl. rewrite Ht.
  assert (Hw : w' = snd (__init__ 0 (PyInt 3) false (fresh bench_busy [] [])))
    by (rewrite Hinit; reflexivity).
  rewrite Hw. reflexivity.
Defined.

(** ** What the pin operations leave alone *)

Lemma same_handle_refl (h : option Z) : same_handle h h = true.
Proof. destruct h; simpl; [apply Z.eqb_refl|reflexivity]. Qed.

Lemma pin_step_refl {D} (w : World D) : pin_step w w.
Proof.
  split; [reflexivity|]. split; [reflexivity|].
  exists []. split; [now rewrite app_nil_r|reflexivity].
Qed.

Lemma pin_step_trans {D} (w1 w2 w3 : World D) :
  pin_step w1 w2 -> pin_step w2 w3 -> pin_step w1 w3.
Proof.
  intros (Hs1 & Hq1 & t1 & Ht1 & Hf1) (Hs2 & Hq2 & t2 & Ht2 & Hf2).
  split; [congruence|]. split.
  - intros Hv. rewrite Hq2 by (rewrite Hs1; exact Hv). apply Hq1, Hv.
  - exists (t1 ++ t2)%list. split.
    + rewrite Ht2, Ht1. now rewrite app_assoc.
    + rewrite forallb_app, Hf1. rewrite Hs1 in Hf2. now rewrite Hf2.
Qed.

Section Steps.

Context {D : Type} {aa : AardvarkPy D}.

Ltac step_done :=
  simpl; (split; [reflexivity|]);
  (split; [intros Hquiet; try discriminate Hquiet; reflexivity|]);
  first [ exists []; split; [now rewrite app_nil_r | reflexivity]
        | rewrite <- ?app_assoc; eexists; (split; [reflexivity|]);
          simpl; rewrite ?same_handle_refl; reflexivity ].

Lemma set_high_step (w : World D) : pin_step w (snd (set_high w)).
Proof.
  destruct w as [[p v h nm mk nk] d t o].
  unfold set_high. unfold_monad. destruct nm, mk, v; run; step_done.
Qed.

Lemma set_low_step (w : World D) : pin_step w (snd (set_low w)).
Proof.
  destruct w as [[p v h nm mk nk] d t o].
  unfold set_low. unfold_monad. destruct nm, mk, v; run; step_done.
Qed.

Lemma get_state_step (w : World D) : pin_step w (snd (get_state w)).
Proof.
  destruct w as [[p v h nm mk nk] d t o].
  unfold get_state. unfold_monad. destruct nm, mk, v; run; step_done.
Qed.

Lemma time_sleep_step (ms : Z) (w : World D) : pin_step w (snd (time_sleep ms w)).
Proof.
  destruct w as [[p v h nm mk nk] d t o].
  unfold time_sleep. destruct (ms <? 0); unfold_monad; step_done.
Qed.

Lemma _log_step (l : LogLine) (w : World D) : pin_step w (snd (_log l w)).
Proof.
  destruct w as [[p v h nm mk nk] d t o].
  unfold _log. unfold_monad. destruct v; step_done.
Qed.

(** Two computations in a row. *)
Lemma bind_step {A B} (m : M D A) (k : A -> M D B) (w : World D) :
  pin_step w (snd (m w)) ->
  (forall a w1, pin_step w1 (snd (k a w1))) ->
  pin_step w (snd (bind m k w)).
Proof.
  intros Hm Hk. unfold bind. destruct (m w) as [[e|a] w1]; simpl in *; [exact Hm|].
  apply (pin_step_trans w w1 _ Hm (Hk a w1)).
Qed.

Lemma pulse_step (d : Z) (w : World D) : pin_step w (snd (pulse d w)).
Proof.
  unfold pulse.
  apply bind_step; [apply set_low_step|]. intros _ w1.
  apply bind_step; [apply time_sleep_step|]. intros _ w2.
  apply bind_step; [apply set_high_step|]. intros _ w3.
  apply _log_step.
Qed.

End Steps.

Section Operations.

Context {D : Type} {aa : AardvarkPy D}.

Lemma pin_op_step (o : PinOp) (w : World D) : pin_step w (snd (pin_op o w)).
Proof.
  destruct o; simpl.
  - apply set_high_step.
  - apply set_low_step.
  - apply bind_step; [apply get_state_step|]. intros a w1. apply pin_step_refl.
  - apply pulse_step.
Qed.

(** X1.  set_high, set_low, get_state and pulse never assign an attribute:
    port, verbose, handle, pin_name, pin_mask and pin_num are after the
    call, returned or raised, what they were before. *)
Theorem pin_operations_leave_the_object :
  forall (o : PinOp) (w : World D), self (snd (pin_op o w)) = self w.
Proof. intros o w. apply (pin_op_step o w). Qed.

(** X2.  The only calls a pin operation makes are reads and writes of the
    GPIO register with the object's own handle (and, for pulse, the
    sleep): it never enumerates, opens, configures or closes. *)
Theorem pin_operations_only_access_the_register :
  forall (o : PinOp) (w : World D),
    exists t, trace (snd (pin_op o w)) = (trace w ++ t)%list /\
              forallb (pin_event (handle (self w))) t = true.
Proof. intros o w. apply (pin_op_step o w). Qed.

(** Closing assigns [handle] only. *)
Lemma close_keeps (w : World D) :
  let s := self w in
  let s' := self (snd (close w)) in
  port s' = port s /\ verbose s' = verbose s /\ pin_name s' = pin_name s /\
  pin_mask s' = pin_mask s /\ pin_num s' = pin_num s /\
  (verbose s = false -> stdout (snd (close w)) = stdout w).
Proof.
  destruct w as [[p v h nm mk nk] d t o].
  unfold close. unfold_monad. simpl.
  destruct (truthy h); [|simpl; repeat split].
  destruct v; run; repeat split; intros Hq; try discriminate Hq; reflexivity.
Qed.

(** X3.  A controller that is not verbose prints nothing: no pin
    operation and no close adds a line to the output, and neither does a
    construction with verbose=False, whether it succeeds or fails. *)
Theorem quiet_controller_prints_nothing :
  forall (w : World D),
    (verbose (self w) = false ->
     (forall o : PinOp, stdout (snd (pin_op o w)) = stdout w) /\
     stdout (snd (close w)) = stdout w) /\
    (forall (port : Z) (pin : pyval),
       stdout (snd (__init__ port pin false w)) = stdout w).
Proof.
  intros w. split.
  - intros Hq. split.
    + intros o. apply (pin_op_step o w). exact Hq.
    + apply (close_keeps w). exact Hq.
  - intros p pin. destruct (valid_selector pin) eqn:Hv.
    + destruct (__init__resolves p pin false w Hv) as (name & m & k & _ & _ & ->).
      unfold _open, _configure_gpio. unfold_monad. run; reflexivity.
    + destruct pin as [z|s|]; simpl in Hv.
      * unfold __init__. unfold_monad. simpl.
        assert (Hc : (z <? 0) || (z >? 5) = true).
        { apply andb_false_iff in Hv. apply orb_true_iff.
          destruct Hv as [Hv|Hv]; [left; apply Z.ltb_lt; apply Z.leb_gt in Hv; lia
                                  |right; apply Z.gtb_lt; apply Z.leb_gt in Hv; lia]. }
        rewrite Hc. reflexivity.
      * unfold __init__. unfold_monad. simpl.
        rewrite dict_contains_names_a_pin, Hv. reflexivity.
      * reflexivity.
Qed.

(** X4.  get_state makes exactly one call, a read of the register with
    the object's handle, and never writes.  When the read returns a value,
    the result is whether that value has a bit of pin_mask - also when
    the value is a negative status of the driver, which is not told from
    register contents. *)
Theorem get_state_reads_once :
  forall (w : World D),
    trace (snd (get_state w)) = (trace w ++ [GpioGet (handle (self w))])%list /\
    forall (v m : Z) (name : string) (d' : D),
      aa_gpio_get (handle (self w)) (drv w) = (inr v, d') ->
      pin_mask (self w) = Some m ->
      pin_name (self w) = Some name ->
      fst (get_state w) = inr (negb (Z.land v m =? 0)) /\
      drv (snd (get_state w)) = d'.
Proof.
  intros [[p vb h nm mk nk] d t o]. simpl. split.
  - unfold get_state. unfold_monad. destruct nm, mk, vb; run; reflexivity.
  - intros v m name d' Hget -> ->.
    unfold get_state. unfold_monad. simpl. rewrite Hget.
    destruct vb; simpl; split; reflexivity.
Qed.

(** X5.  set_high writes back what it read with the bits of pin_mask
    cleared, set_low with them set, and both read the register again.
    They return whatever status the write returns: no status of the
    driver is turned into an error. *)
Theorem set_high_set_low_write_back :
  forall (w : World D) (m : Z) (name : string) (h : option Z),
    handle (self w) = h ->
    pin_mask (self w) = Some m ->
    pin_name (self w) = Some name ->
    forall (clear : bool) (v1 : Z) (d1 : D) (status : Z) (d2 : D) (v2 : Z) (d3 : D),
      let new_value := if clear then Z.land v1 (Z.lnot m) else Z.lor v1 m in
      aa_gpio_get h (drv w) = (inr v1, d1) ->
      aa_gpio_set h new_value d1 = (inr status, d2) ->
      aa_gpio_get h d2 = (inr v2, d3) ->
      let w' := snd ((if clear then set_high else set_low) w) in
      fst ((if clear then set_high else set_low) w) = inr tt /\
      drv w' = d3 /\
      trace w' = (trace w ++ [GpioGet h; GpioSet h new_value; GpioGet h])%list.
Proof.
  intros [[p vb h0 nm mk nk] d t o] m name h. simpl. intros <- -> ->.
  intros clear v1 d1 status d2 v2 d3. cbv zeta. intros Hg1 Hs Hg2.
  destruct clear; [unfold set_high|unfold set_low]; unfold_monad; simpl;
    rewrite Hg1; simpl; rewrite Hs; simpl; rewrite Hg2;
    destruct vb; simpl; rewrite <- ?app_assoc; repeat split.
Qed.

(** X6.  When the driver's close raises, close fails with that exception
    before anything is logged and with the handle still in place, so that
    a later close (or the destructor) calls the driver's close again. *)
Theorem close_raising_keeps_the_handle :
  forall (w : World D) (h : Z) (cls : string) (d' : D),
    handle (self w) = Some h -> h <> 0 ->
    aa_close (Some h) (drv w) = (inl cls, d') ->
    let w' := mkWorld (self w) d' (trace w ++ [Close (Some h)]) (stdout w) in
    close w = (inl (Raised cls), w') /\
    exists t, trace (snd (__del__ w')) = (trace w' ++ Close (Some h) :: t)%list.
Proof.
  intros [[p vb h0 nm mk nk] d t o] h cls d'. simpl. intros -> Hh Hc.
  apply Z.eqb_neq in Hh. split.
  - unfold close. unfold_monad. simpl. rewrite Hh. simpl. rewrite Hc. reflexivity.
  - unfold __del__, close. unfold_monad. simpl. rewrite Hh. simpl.
    destruct (aa_close (Some h) d') as [[c|r] d'']; destruct vb; simpl;
      exists []; reflexivity.
Qed.

End Operations.

Section ConstructionOrder.

Context {D : Type} {aa : AardvarkPy D}.

Lemma __init__rejects (p : Z) (pin : pyval) (v : bool) (w : World D) :
  valid_selector pin = false -> exists e, fst (__init__ p pin v w) = inl e.
Proof.
  intros Hv. destruct pin as [z|s|]; simpl in Hv; unfold __init__; unfold_monad; simpl.
  - assert (Hc : (z <? 0) || (z >? 5) = true).
    { apply andb_false_iff in Hv. apply orb_true_iff.
      destruct Hv as [Hv|Hv]; [left; apply Z.ltb_lt; apply Z.leb_gt in Hv; lia
                              |right; apply Z.gtb_lt; apply Z.leb_gt in Hv; lia]. }
    rewrite Hc. eexists. reflexivity.
  - rewrite dict_contains_names_a_pin, Hv. eexists. reflexivity.
  - eexists. reflexivity.
Qed.

(** What a construction that returns has done. *)
Lemma __init__returns :
  forall (port : Z) (pin : pyval) (verbose : bool) (w w' : World D),
    __init__ port pin verbose w = (inr tt, w') ->
    exists h m current,
      handle (self w') = Some h /\ 0 < h /\ pin_mask (self w') = Some m /\
      trace w' =
      (trace w ++
       [FindDevicesExt 16 16; Open port; Version (Some h);
        Configure (Some h) AA_CONFIG_GPIO_ONLY; GpioDirection (Some h) m;
        GpioPullup (Some h) 0; GpioGet (Some h);
        GpioSet (Some h) (Z.land current (Z.lnot m))])%list.
Proof.
  intros p pin v w w' H.
  destruct (valid_selector pin) eqn:Hv.
  2:{ destruct (__init__rejects p pin v w Hv) as [e He]. rewrite H in He. discriminate He. }
  destruct (__init__resolves p pin v w Hv) as (name & m & k & _ & _ & Heq).
  rewrite Heq in H. clear Heq. revert H.
  unfold _open, _configure_gpio. unfold_monad.
  run; intros H; try discriminate H; injection H as <-; simpl;
    match goal with
    | Hh : (?h <=? 0) = false |- _ => apply Z.leb_gt in Hh; exists h
    end;
    eexists _, _; (split; [reflexivity|]); (split; [assumption|]);
    (split; [reflexivity|]); rewrite <- ?app_assoc; reflexivity.
Qed.


Ltac pin_cases i :=
  let Hz := fresh "Hz" in
  assert (Hz : i = 0 \/ i = 1 \/ i = 2 \/ i = 3 \/ i = 4 \/ i = 5) by lia;
  destruct Hz as [->|[->|[->|[->|[->| ->]]]]].

(** X8.  With a valid selector the constructor resolves the pin before it
    opens anything, and the attributes stay whatever opening does:
    pin_num is the position of pin_name in the table, pin_mask is the
    table's entry for that name, and for an integer selector pin_num is
    that integer. *)
Theorem resolved_pin_attributes :
  forall (port : Z) (pin : pyval) (verbose : bool) (w : World D),
    valid_selector pin = true ->
    exists name k,
      let s' := self (snd (__init__ port pin verbose w)) in
      pin_name s' = Some name /\ pin_num s' = Some k /\
      list_item PIN_NAMES k = Some name /\
      list_index PIN_NAMES name = Some k /\
      pin_mask s' = dict_get GPIO_PINS name /\
      match pin with PyInt i => k = i | _ => True end.
Proof.
  intros p pin v w Hv.
  assert (Hres : exists name k,
             list_item PIN_NAMES k = Some name /\
             list_index PIN_NAMES name = Some k /\
             match pin with PyInt i => k = i | _ => True end /\
             __init__ p pin v w =
             _open (mkWorld (mkSelf p v None (Some name) (dict_get GPIO_PINS name) (Some k))
                            (drv w) (trace w) (stdout w))).
  { destruct pin as [i|s|]; simpl in Hv; [| |discriminate].
    - apply andb_true_iff in Hv. destruct Hv as [H0 H5].
      apply Z.leb_le in H0. apply Z.leb_le in H5.
      pin_cases i;
        [exists "SCL", 0|exists "SDA", 1|exists "MISO", 2
        |exists "SCK", 3|exists "MOSI", 4|exists "SS", 5];
        repeat split.
    - destruct (__init__resolves p (PyStr s) v w Hv) as (name & m & k & Hm & Hk & Heq).
      exists name, k. rewrite Heq, Hm. split; [exact Hk|]. split; [|split; reflexivity].
      unfold list_item in Hk. destruct (k <? 0) eqn:Hneg; [discriminate|].
      apply Z.ltb_ge in Hneg.
      assert (Hlt : (Z.to_nat k < 6)%nat).
      { change 6%nat with (List.length PIN_NAMES).
        apply (proj1 (nth_error_Some PIN_NAMES (Z.to_nat k))). rewrite Hk. discriminate. }
      assert (Hk5 : 0 <= k <= 5) by lia.
      pin_cases k; injection Hk as <-; reflexivity. }
  destruct Hres as (name & k & Hitem & Hidx & Hint & Heq).
  exists name, k. cbv zeta. rewrite Heq.
  match goal with
  | |- context [_open ?W] =>
      destruct (_open_keeps_pin W) as (_ & _ & Hpn & Hpm & Hpk)
  end.
  cbn [self pin_name pin_mask pin_num] in Hpn, Hpm, Hpk.
  rewrite Hpn, Hpm, Hpk. repeat split; assumption.
Qed.

(** X9.  When enumeration finds no device, or the port is not below the
    device count, construction fails without calling the driver's open:
    the handle is still None, and finalising the abandoned object calls
    nothing. *)
Theorem no_open_nothing_to_close :
  forall (port : Z) (pin : pyval) (verbose : bool) (w : World D)
         (n : Z) (ports ids : list Z) (d1 : D),
    valid_selector pin = true ->
    aa_find_devices_ext 16 16 (drv w) = (inr (n, ports, ids), d1) ->
    n = 0 \/ n <= port ->
    exists e w',
      __init__ port pin verbose w = (inl e, w') /\
      handle (self w') = None /\ drv w' = d1 /\
      trace w' = (trace w ++ [FindDevicesExt 16 16])%list /\
      __del__ w' = (inr tt, w').
Proof.
  intros p pin v w n ports ids d1 Hv Hfind Hn.
  destruct (__init__resolves p pin v w Hv) as (name & m & k & _ & _ & ->).
  unfold _open. unfold_monad. simpl. rewrite Hfind. simpl.
  destruct (n =? 0) eqn:H0.
  - eexists _, _. repeat split.
  - assert (Hp : (p >=? n) = true).
    { apply Z.geb_le. apply Z.eqb_neq in H0. destruct Hn; [contradiction|assumption]. }
    destruct v; simpl; rewrite Hp; eexists _, _; repeat split.
Qed.

End ConstructionOrder.

(** ** More on the simulated adapter *)

Lemma clear_after_set (r m : Z) :
  u08 (Z.land (u08 (Z.lor r m)) (Z.lnot m)) = u08 (Z.land r (Z.lnot m)).
Proof.
  apply Z.bits_inj'. intros i Hi. unfold u08.
  rewrite !Z.land_spec, Z.lor_spec, !Z.lnot_spec by exact Hi.
  destruct (Z.testbit r i), (Z.testbit m i), (Z.testbit 255 i); reflexivity.
Qed.

Lemma set_after_clear (r m : Z) :
  u08 (Z.lor (u08 (Z.land r (Z.lnot m))) m) = u08 (Z.lor r m).
Proof.
  apply Z.bits_inj'. intros i Hi. unfold u08.
  rewrite !Z.land_spec, !Z.lor_spec, !Z.land_spec, Z.lnot_spec by exact Hi.
  destruct (Z.testbit r i), (Z.testbit m i), (Z.testbit 255 i); reflexivity.
Qed.

Lemma clear_after_clear (r m : Z) :
  u08 (Z.land (u08 (Z.land r (Z.lnot m))) (Z.lnot m)) = u08 (Z.land r (Z.lnot m)).
Proof.
  apply Z.bits_inj'. intros i Hi. unfold u08.
  rewrite !Z.land_spec, !Z.lnot_spec by exact Hi.
  destruct (Z.testbit r i), (Z.testbit m i), (Z.testbit 255 i); reflexivity.
Qed.

Lemma set_after_set (r m : Z) :
  u08 (Z.lor (u08 (Z.lor r m)) m) = u08 (Z.lor r m).
Proof.
  apply Z.bits_inj'. intros i Hi. unfold u08.
  rewrite !Z.land_spec, !Z.lor_spec, !Z.land_spec, Z.lor_spec by exact Hi.
  destruct (Z.testbit r i), (Z.testbit m i), (Z.testbit 255 i); reflexivity.
Qed.

(** The register after one operation and after two in a row. *)
Lemma gpio_after_op (o : Op) (w : World Sim) (h m : Z) (name : string) :
  ready w h m name ->
  exists w', run_op o w = (inr tt, w') /\ ready w' h m name /\
    sim_gpio (drv w') =
    match o with
    | SetLow => u08 (Z.lor (sim_gpio (drv w)) m)
    | SetHigh => u08 (Z.land (sim_gpio (drv w)) (Z.lnot m))
    end.
Proof.
  intros Hr. destruct o; simpl.
  - rewrite (set_low_ready w h m name Hr). eexists. split; [reflexivity|].
    split; [apply ready_with_gpio; exact Hr|reflexivity].
  - rewrite (set_high_ready w h m name Hr). eexists. split; [reflexivity|].
    split; [apply ready_with_gpio; exact Hr|reflexivity].
Qed.

(** X10.  On an open controller the last of two operations in a row
    decides the register: set_low() then set_high() leaves the GPIO
    register as set_high() alone does, set_high() then set_low() as
    set_low() alone, and repeating an operation changes nothing more. *)
Theorem last_operation_decides_the_register :
  forall (w : World Sim) (h m : Z) (name : string) (o1 o2 : Op),
    ready w h m name ->
    fst ((run_op o1 ;; run_op o2) w) = inr tt /\
    fst (run_op o2 w) = inr tt /\
    sim_gpio (drv (snd ((run_op o1 ;; run_op o2) w))) =
    sim_gpio (drv (snd (run_op o2 w))).
Proof.
  intros w h m name o1 o2 Hr.
  destruct (gpio_after_op o1 w h m name Hr) as (w1 & H1 & Hr1 & Hg1).
  destruct (gpio_after_op o2 w1 h m name Hr1) as (w2 & H2 & _ & Hg2).
  destruct (gpio_after_op o2 w h m name Hr) as (w2' & H2' & _ & Hg2').
  unfold bind. rewrite H1, H2, H2'. simpl. split; [reflexivity|]. split; [reflexivity|].
  rewrite Hg2, Hg2', Hg1.
  destruct o1, o2.
  - apply set_after_set.
  - apply clear_after_set.
  - apply set_after_clear.
  - apply clear_after_clear.
Qed.

(** X11.  get_state on an open controller returns the physical bit of the
    pin and leaves the device as it was, so that asking twice gives the
    same answer. *)
Theorem get_state_returns_the_pin_bit :
  forall (w : World Sim) (h m : Z) (name : string),
    ready w h m name ->
    fst (get_state w) = inr (pin_bit w) /\
    drv (snd (get_state w)) = drv w /\
    fst (get_state (snd (get_state w))) = inr (pin_bit w).
Proof.
  intros w h m name Hr. pose proof Hr as (Hh & Ho & Hm & Hm8 & Hn).
  rewrite (get_state_ready w h m name Hr). simpl.
  assert (Hr' : forall t o, ready (mkWorld (self w) (drv w) t o) h m name).
  { intros t o. unfold ready. simpl. tauto. }
  rewrite (get_state_ready _ h m name (Hr' _ _)). simpl.
  unfold pin_bit. rewrite Hm. repeat split.
Qed.



Lemma forget_closes (h : Z) (l : list Z) :
  existsb (Z.eqb h) (forget (Some h) l) = false.
Proof.
  induction l as [|z l IH]; simpl; [reflexivity|].
  destruct (z =? h) eqn:E; simpl; [exact IH|].
  rewrite Z.eqb_sym, E. exact IH.
Qed.

(** Closing an open controller on the simulated adapter. *)
Lemma close_ready (w : World Sim) (h m : Z) (name : string) :
  ready w h m name -> h <> 0 ->
  close w =
  (inr tt,
   mkWorld (mkSelf (port (self w)) (verbose (self w)) None (pin_name (self w))
                   (pin_mask (self w)) (pin_num (self w)))
           (with_opened (forget (Some h) (sim_opened (drv w))) (drv w))
           (trace w ++ [Close (Some h)])
           (stdout w ++ logs (verbose (self w)) [LogClosed])).
Proof.
  open_world w. unfold ready. simpl. intros (-> & Hopen & -> & Hm & ->) Hh.
  apply Z.eqb_neq in Hh.
  unfold close. unfold_monad. simpl. rewrite Hh. simpl.
  unfold sim_close, on_handle, is_open in *. rewrite Hopen.
  destruct v; simpl; rewrite ?app_nil_r; reflexivity.
Qed.

(** X14.  Closing an open controller returns after one call, the driver's
    close with the handle; the handle is then None and no longer open on
    the device, and the GPIO, direction and pullup registers are as they
    were: the pin keeps the level it was left at. *)
Theorem close_keeps_the_pin_level :
  forall (w : World Sim) (h m : Z) (name : string),
    ready w h m name -> h <> 0 ->
    let w' := snd (close w) in
    fst (close w) = inr tt /\
    handle (self w') = None /\ is_open (drv w') h = false /\
    trace w' = (trace w ++ [Close (Some h)])%list /\
    sim_gpio (drv w') = sim_gpio (drv w) /\
    sim_direction (drv w') = sim_direction (drv w) /\
    sim_pullup (drv w') = sim_pullup (drv w) /\
    pin_bit w' = pin_bit w.
Proof.
  intros w h m name Hr Hh. cbv zeta. rewrite (close_ready w h m name Hr Hh). simpl.
  repeat split. unfold is_open. simpl. apply forget_closes.
Qed.

(** Construction on the simulated adapter, with the device it leaves. *)
Lemma __init__device (p : Z) (pin : pyval) (v : bool) (w0 : World Sim) :
  valid_selector pin = true ->
  sim_devices (drv w0) <> 0 ->
  p < sim_devices (drv w0) ->
  0 < sim_handle (drv w0) p ->
  let h := sim_handle (drv w0) p in
  exists w name m,
    __init__ p pin v w0 = (inr tt, w) /\
    ready w h m name /\ verbose (self w) = v /\
    drv w =
    with_gpio (u08 (Z.land (sim_gpio (drv w0)) (Z.lnot m)))
      (with_pullup 0 (with_direction m (with_config 0
         (with_opened (h :: sim_opened (drv w0)) (drv w0))))).
Proof.
  intros Hv Hn Hp Hh h.
  destruct (__init__resolves p pin v w0 Hv) as (name & m & k & Hm & Hk & ->).
  pose proof (GPIO_PINS_mask name m Hm) as Hm8.
  apply Z.eqb_neq in Hn.
  assert (Hp' : (p >=? sim_devices (drv w0)) = false)
    by (rewrite Z.geb_leb; apply Z.leb_gt; lia).
  assert (Hle : (h <=? 0) = false) by (apply Z.leb_gt; exact Hh).
  assert (Hlt : (0 <? h) = true) by (apply Z.ltb_lt; exact Hh).
  open_world w0. simpl in *. fold h.
  unfold _open, _configure_gpio. unfold_monad. simpl. rewrite Hn.
  exists (mkWorld (mkSelf p v (Some h) (Some name) (Some m) (Some k))
            (with_gpio (u08 (Z.land (sim_gpio d) (Z.lnot m)))
               (with_pullup 0 (with_direction m (with_config 0
                  (with_opened (h :: sim_opened d) d)))))
            (t ++ [FindDevicesExt 16 16; Open p; Version (Some h); Configure (Some h) 0;
                   GpioDirection (Some h) m; GpioPullup (Some h) 0; GpioGet (Some h);
                   GpioSet (Some h) (Z.land (sim_gpio d) (Z.lnot m))])
            (o ++ logs v [LogFound (sim_devices d); LogOpened p h;
                          LogVersion (fst (sim_version d)) (snd (sim_version d));
                          LogGpioOnly; LogConfigured name k; LogInitLow])),
         name, m.
  split; [|split; [|split]].
  - destruct v; simpl; rewrite Hp'; simpl; unfold sim_open; fold h;
      rewrite Hle, Hlt; simpl; unfold on_handle, is_open; simpl;
      repeat (progress (rewrite ?Z.eqb_refl; simpl));
      rewrite (u08_small m) by lia;
      rewrite <- ?app_assoc, ?app_nil_r; reflexivity.
  - unfold ready, is_open. simpl. rewrite Z.eqb_refl. repeat split; try reflexivity; lia.
  - reflexivity.
  - reflexivity.
Qed.

(** X15.  A successful construction on the simulated adapter leaves the
    direction register equal to pin_mask - the selected pin an output
    and every other pin an input -, pullups off, GPIO-only mode, and the
    new handle open; of an 8-bit GPIO register it changes no bit outside
    pin_mask. *)
Theorem construction_configures_the_pin :
  forall (port : Z) (pin : pyval) (verbose : bool) (w0 : World Sim),
    valid_selector pin = true ->
    sim_devices (drv w0) <> 0 ->
    port < sim_devices (drv w0) ->
    0 < sim_handle (drv w0) port ->
    exists w m,
      __init__ port pin verbose w0 = (inr tt, w) /\
      pin_mask (self w) = Some m /\
      sim_direction (drv w) = m /\
      sim_pullup (drv w) = 0 /\
      sim_config (drv w) = AA_CONFIG_GPIO_ONLY /\
      sim_opened (drv w) = sim_handle (drv w0) port :: sim_opened (drv w0) /\
      (0 <= sim_gpio (drv w0) < 256 ->
       forall i, Z.testbit m i = false ->
                 Z.testbit (sim_gpio (drv w)) i = Z.testbit (sim_gpio (drv w0)) i).
Proof.
  intros p pin v w0 Hv Hn Hp Hh.
  destruct (__init__device p pin v w0 Hv Hn Hp Hh)
    as (w & name & m & Hinit & (_ & _ & Hm & _) & _ & Hd).
  exists w, m. split; [exact Hinit|]. split; [exact Hm|]. rewrite Hd. simpl.
  repeat split. intros H8 i Hi. apply clear_frame; assumption.
Qed.

(** ** The command line *)

Section MainRuns.

Context {D : Type} {aa : AardvarkPy D}.
Variable py_int : string -> option Z.
Variable is_Exception : string -> bool.




Lemma lift_step {A} (m : M D A) (c : Cli D) :
  pin_step (world c) (snd (m (world c))) ->
  pin_step (world c) (world (snd (lift m c))) /\
  fst (lift m c) = fst (m (world c)) /\ world (snd (lift m c)) = snd (m (world c)).
Proof. unfold lift. destruct (m (world c)) as [r w']. simpl. tauto. Qed.

Lemma cbind_step {A B} (m : C D A) (k : A -> C D B) (c : Cli D) :
  pin_step (world c) (world (snd (m c))) ->
  (forall a c1, pin_step (world c1) (world (snd (k a c1)))) ->
  pin_step (world c) (world (snd (cbind m k c))).
Proof.
  intros Hm Hk. unfold cbind. destruct (m c) as [[e|a] c1]; simpl in *; [exact Hm|].
  apply (pin_step_trans _ (world c1) _ Hm (Hk a c1)).
Qed.

Lemma cprint_step (l : CliLine) (c : Cli D) :
  pin_step (world c) (world (snd (cprint l c))).
Proof. apply pin_step_refl. Qed.

(** The action of [main] is made of pin operations. *)
Lemma action_step (args : Args) (c : Cli D) :
  pin_step (world c) (world (snd (action args c))).
Proof.
  unfold action.
  destruct (arg_high args); [apply lift_step, set_high_step|].
  destruct (arg_low args); [apply lift_step, set_low_step|].
  destruct (arg_get args).
  { apply cbind_step; [apply lift_step, get_state_step|]. intros st c1.
    apply cbind_step.
    - apply lift_step. unfold self_pin_name, unwrap.
      destruct (pin_name (self (world c1))); apply pin_step_refl.
    - intros name c2. apply cprint_step. }
  destruct (arg_cycle args); [|apply pin_step_refl].
  apply cbind_step; [apply cprint_step|]. intros _ c1.
  apply cbind_step; [apply lift_step, set_high_step|]. intros _ c2.
  apply cbind_step; [apply lift_step, time_sleep_step|]. intros _ c3.
  apply cbind_step; [apply lift_step, set_low_step|]. intros _ c4.
  apply cbind_step; [apply lift_step, time_sleep_step|]. intros _ c5.
  apply cbind_step; [apply lift_step, set_high_step|]. intros _ c6.
  apply cprint_step.
Qed.

(** Closing with a handle that is neither None nor 0 is one call of the
    driver's close, whatever it answers. *)
Lemma close_calls_once (w : World D) (h : Z) :
  handle (self w) = Some h -> h <> 0 ->
  trace (snd (close w)) = (trace w ++ [Close (Some h)])%list.
Proof.
  destruct w as [[p v h0 nm mk nk] d t o]. simpl. intros -> Hh.
  apply Z.eqb_neq in Hh. unfold close. unfold_monad. simpl. rewrite Hh.
  destruct v; run; reflexivity.
Qed.

(** X17.  Once the constructor has returned, main makes no call but reads
    and writes of the GPIO register with the handle it opened (and
    sleeps), and then, whether the action returned or raised, exactly one
    call of the driver's close with that handle, which is its last
    call. *)
Theorem main_closes_what_it_opened :
  forall (args : Args) (c : Cli D) (w1 : World D),
    __init__ (arg_port args) (pin_argument py_int (arg_pin args))
             (negb (arg_quiet args))
             (mkWorld blank (drv (world c)) (trace (world c)) (stdout (world c))) =
      (inr tt, w1) ->
    exists h t,
      handle (self w1) = Some h /\ 0 < h /\
      forallb (pin_event (Some h)) t = true /\
      trace (world (snd (main py_int is_Exception args c))) =
        (trace w1 ++ t ++ [Close (Some h)])%list.
Proof.
  intros args c w1 Hinit.
  destruct (__init__returns _ _ _ _ _ Hinit) as (h & m & cur & Hh & Hpos & _ & _).
  unfold main, with_AardvarkGPIO, lift. cbv zeta. unfold bind at 1.
  cbn [world console]. rewrite Hinit.
  unfold __enter__, ret. cbv beta iota.
  pose proof (action_step args (mkCli w1 (console c))) as (Hself & _ & t & Ht & Hev).
  simpl in Hself, Ht, Hev. rewrite Hh in Hev.
  exists h, t. split; [exact Hh|]. split; [exact Hpos|]. split; [exact Hev|].
  destruct (action args (mkCli w1 (console c))) as [[e|a] c2]; simpl in *.
  - assert (Hc : trace (snd (close (world c2))) = (trace (world c2) ++ [Close (Some h)])%list).
    { apply close_calls_once; [rewrite Hself; exact Hh|lia]. }
    unfold __exit__. destruct (close (world c2)) as [[e'|u] w3]; simpl in *;
      [destruct (caught is_Exception e')|destruct (caught is_Exception e)];
      simpl; rewrite Hc, Ht, app_assoc; reflexivity.
  - assert (Hc : trace (snd (close (world c2))) = (trace (world c2) ++ [Close (Some h)])%list).
    { apply close_calls_once; [rewrite Hself; exact Hh|lia]. }
    unfold __exit__. destruct (close (world c2)) as [[e'|u] w3]; simpl in *;
      [destruct (caught is_Exception e')|];
      simpl; rewrite Hc, Ht, app_assoc; reflexivity.
Qed.

End MainRuns.

(** ** The command line on the simulated adapter *)

Ltac ready_world := unfold ready, is_open in *; simpl; tauto.

Ltac sim_step h m name :=
  cbv beta iota; cbn [world console fst snd];
  match goal with
  | |- context [set_high ?W] =>
      rewrite (set_high_ready W h m name ltac:(ready_world))
  | |- context [set_low ?W] =>
      rewrite (set_low_ready W h m name ltac:(ready_world))
  | |- context [get_state ?W] =>
      rewrite (get_state_ready W h m name ltac:(ready_world))
  | |- context [close ?W] =>
      rewrite (close_ready W h m name ltac:(ready_world) ltac:(lia))
  end.

Section MainOnSim.

Variable py_int : string -> option Z.
Variable is_Exception : string -> bool.

(** [main] up to its action, when the adapter opens. *)
Lemma main_opens (args : Args) (c : Cli Sim) :
  let d0 := drv (world c) in
  let p := arg_port args in
  valid_selector (pin_argument py_int (arg_pin args)) = true ->
  sim_devices d0 <> 0 ->
  p < sim_devices d0 ->
  0 < sim_handle d0 p ->
  exists w1 name m,
    ready w1 (sim_handle d0 p) m name /\
    sim_gpio (drv w1) = u08 (Z.land (sim_gpio d0) (Z.lnot m)) /\
    main py_int is_Exception args c =
    match
      match action args (mkCli w1 (console c)) with
      | (inr a, c2) =>
          match lift __exit__ c2 with
          | (inr _, c3) => (inr a, c3)
          | (inl e', c3) => (inl e', c3)
          end
      | (inl e, c2) =>
          match lift __exit__ c2 with
          | (inr _, c3) => (inl e, c3)
          | (inl e', c3) => (inl e', c3)
          end
      end
    with
    | (inr _, c') => (Returned, c')
    | (inl e, c') =>
        if caught is_Exception e
        then (Exit 1, mkCli (world c')
                        (console c' ++ [(List.length (stdout (world c')), ErrorLine e)]))
        else (Uncaught e, c')
    end.
Proof.
  intros d0 p Hv Hn Hp Hh.
  destruct (__init__device p (pin_argument py_int (arg_pin args)) (negb (arg_quiet args))
              (mkWorld blank d0 (trace (world c)) (stdout (world c))) Hv Hn Hp Hh)
    as (w1 & name & m & Hinit & Hr & _ & Hd).
  exists w1, name, m. split; [exact Hr|]. split; [rewrite Hd; reflexivity|].
  unfold main, with_AardvarkGPIO. cbv zeta. unfold lift at 1. unfold bind at 1.
  cbn [world console]. fold d0 p. rewrite Hinit. reflexivity.
Qed.


(** X19.  With an adapter that opens, [--low] returns with the pin's bit
    set and [--high] with it clear, and the bit is so in the register
    after the adapter has been closed: leaving main does not reset the
    pin. *)
Theorem main_high_low_outlive_close :
  forall (args : Args) (c : Cli Sim),
    let d0 := drv (world c) in
    let final := world (snd (main py_int is_Exception args c)) in
    valid_selector (pin_argument py_int (arg_pin args)) = true ->
    sim_devices d0 <> 0 ->
    arg_port args < sim_devices d0 ->
    0 < sim_handle d0 (arg_port args) ->
    arg_high args = true \/ arg_low args = true ->
    fst (main py_int is_Exception args c) = Returned /\
    is_open (drv final) (sim_handle d0 (arg_port args)) = false /\
    pin_bit final = negb (arg_high args).
Proof.
  intros args c d0 final Hv Hn Hp Hh Hflag. subst final.
  destruct (main_opens args c Hv Hn Hp Hh) as (w1 & name & m & Hr & Hg & ->).
  fold d0 in Hr. set (h := sim_handle d0 (arg_port args)) in *.
  pose proof Hr as (Hh1 & Ho1 & Hm1 & Hm8 & Hn1).
  unfold action.
  destruct (arg_high args) eqn:Hhigh.
  - unfold lift, __exit__. sim_step h m name. sim_step h m name.
    cbv beta iota; cbn [world console fst snd drv self].
    split; [reflexivity|]. split; [unfold is_open; simpl; apply forget_closes|].
    unfold pin_bit. simpl. rewrite Hm1, cleared_bit. reflexivity.
  - destruct Hflag as [Hf|Hlow]; [discriminate Hf|]. rewrite Hlow.
    unfold lift, __exit__. sim_step h m name. sim_step h m name.
    cbv beta iota; cbn [world console fst snd drv self].
    split; [reflexivity|]. split; [unfold is_open; simpl; apply forget_closes|].
    unfold pin_bit. simpl. rewrite Hm1, set_bit by exact Hm8.
    apply negb_true_iff, Z.eqb_neq. lia.
Qed.



End MainOnSim.

(** ** The further properties at work on the bench *)

Lemma quiet_controller_prints_nothing_witness :
  (forall o : PinOp, stdout (snd (pin_op o bench_opened)) = stdout bench_opened) /\
  stdout (snd (close bench_opened)) = stdout bench_opened.
Proof.
  apply (proj1 (quiet_controller_prints_nothing (aa := SimDriver) bench_opened)).
  reflexivity.
Defined.

Lemma get_state_reads_once_witness :
  fst (get_state bench_opened) = inr (negb (Z.land 247 8 =? 0)) /\
  drv (snd (get_state bench_opened)) = drv bench_opened.
Proof.
  apply (proj2 (get_state_reads_once (aa := SimDriver) bench_opened) 247 8 "SCK"
               (drv bench_opened)); reflexivity.
Defined.

Lemma set_high_set_low_write_back_witness :
  fst (set_low bench_opened) = inr tt /\
  drv (snd (set_low bench_opened)) = with_gpio 255 (drv bench_opened) /\
  trace (snd (set_low bench_opened)) =
    (trace bench_opened ++ [GpioGet (Some 1); GpioSet (Some 1) (Z.lor 247 8);
                            GpioGet (Some 1)])%list.
Proof.
  refine (set_high_set_low_write_back (aa := SimDriver) bench_opened 8 "SCK" (Some 1)
            _ _ _ false 247 (drv bench_opened) 0
            (with_gpio 255 (drv bench_opened)) 255 (with_gpio 255 (drv bench_opened))
            _ _ _); vm_compute; reflexivity.
Defined.

Lemma close_raising_keeps_the_handle_witness :
  close (aa := Unplugged) unplugged_world =
    (inl (Raised "OSError"),
     mkWorld (self unplugged_world) tt [Close (Some 1)] []) /\
  exists t,
    trace (snd (__del__ (aa := Unplugged)
                  (mkWorld (self unplugged_world) tt [Close (Some 1)] []))) =
    ([Close (Some 1)] ++ Close (Some 1) :: t)%list.
Proof.
  apply (close_raising_keeps_the_handle (aa := Unplugged) unplugged_world 1 "OSError" tt);
    [reflexivity | lia | reflexivity].
Defined.


Lemma resolved_pin_attributes_witness :
  exists name k,
    let s' := self (snd (__init__ 7 (PyStr "Miso") true (fresh bench [] []))) in
    pin_name s' = Some name /\ pin_num s' = Some k /\
    list_item PIN_NAMES k = Some name /\
    list_index PIN_NAMES name = Some k /\
    pin_mask s' = dict_get GPIO_PINS name /\
    True.
Proof.
  apply (resolved_pin_attributes (aa := SimDriver) 7 (PyStr "Miso") true (fresh bench [] [])).
  reflexivity.
Defined.

Lemma no_open_nothing_to_close_witness :
  exists e w',
    __init__ 0 (PyInt 0) true (fresh bench_empty [] []) = (inl e, w') /\
    handle (self w') = None /\ drv w' = bench_empty /\
    trace w' = ([] ++ [FindDevicesExt 16 16])%list /\
    __del__ w' = (inr tt, w').
Proof.
  apply (no_open_nothing_to_close (aa := SimDriver) 0 (PyInt 0) true
           (fresh bench_empty [] []) 0 [] [] bench_empty);
    [reflexivity | reflexivity | left; reflexivity].
Defined.

Lemma last_operation_decides_the_register_witness :
  fst ((run_op SetLow ;; run_op SetHigh) bench_opened) = inr tt /\
  fst (run_op SetHigh bench_opened) = inr tt /\
  sim_gpio (drv (snd ((run_op SetLow ;; run_op SetHigh) bench_opened))) =
  sim_gpio (drv (snd (run_op SetHigh bench_opened))).
Proof.
  apply (last_operation_decides_the_register bench_opened 1 8 "SCK" SetLow SetHigh).
  exact ready_bench_opened.
Defined.

Lemma get_state_returns_the_pin_bit_witness :
  fst (get_state bench_opened) = inr (pin_bit bench_opened) /\
  drv (snd (get_state bench_opened)) = drv bench_opened /\
  fst (get_state (snd (get_state bench_opened))) = inr (pin_bit bench_opened).
Proof.
  apply (get_state_returns_the_pin_bit bench_opened 1 8 "SCK"). exact ready_bench_opened.
Defined.



Lemma close_keeps_the_pin_level_witness :
  fst (close bench_opened) = inr tt /\
  handle (self bench_closed) = None /\ is_open (drv bench_closed) 1 = false /\
  sim_gpio (drv bench_closed) = sim_gpio (drv bench_opened).
Proof.
  destruct (close_keeps_the_pin_level bench_opened 1 8 "SCK")
    as (H1 & H2 & H3 & _ & H5 & _); [exact ready_bench_opened | lia |].
  repeat split; assumption.
Defined.

Lemma construction_configures_the_pin_witness :
  exists w m,
    __init__ 0 (PyStr "ss") false (fresh bench [] []) = (inr tt, w) /\
    pin_mask (self w) = Some m /\
    sim_direction (drv w) = m /\
    sim_pullup (drv w) = 0 /\
    sim_config (drv w) = AA_CONFIG_GPIO_ONLY /\
    sim_opened (drv w) = [1].
Proof.
  destruct (construction_configures_the_pin 0 (PyStr "ss") false (fresh bench [] []))
    as (w & m & H1 & H2 & H3 & H4 & H5 & H6 & _);
    [reflexivity | simpl; lia | simpl; lia | simpl; lia |].
  exists w, m. repeat split; assumption.
Defined.


Lemma main_closes_what_it_opened_witness :
  exists h t,
    handle (self (snd (__init__ 0 (PyStr "sda") false (fresh bench [] [])))) = Some h /\
    0 < h /\
    forallb (pin_event (Some h)) t = true /\
    trace (world (snd (main bench_int bench_exceptions
                         (bench_args "sda" false true false false 0)
                         (mkCli (fresh bench [] []) [])))) =
      (trace (snd (__init__ 0 (PyStr "sda") false (fresh bench [] []))) ++ t ++
       [Close (Some h)])%list.
Proof.
  apply (main_closes_what_it_opened (aa := SimDriver) bench_int bench_exceptions
           (bench_args "sda" false true false false 0) (mkCli (fresh bench [] []) [])
           (snd (__init__ 0 (PyStr "sda") false (fresh bench [] [])))).
  vm_compute. reflexivity.
Defined.


Lemma main_high_low_outlive_close_witness :
  fst (main bench_int bench_exceptions (bench_args "4" false true false false 0)
            (mkCli (fresh bench [] []) [])) = Returned /\
  is_open (drv (world (snd (main bench_int bench_exceptions
                              (bench_args "4" false true false false 0)
                              (mkCli (fresh bench [] []) []))))) 1 = false /\
  pin_bit (world (snd (main bench_int bench_exceptions
                         (bench_args "4" false true false false 0)
                         (mkCli (fresh bench [] []) [])))) = negb false.
Proof.
  apply (main_high_low_outlive_close bench_int bench_exceptions
           (bench_args "4" false true false false 0) (mkCli (fresh bench [] []) []));
    [vm_compute; reflexivity | simpl; lia | simpl; lia | simpl; lia | right; reflexivity].
Defined.


